(** * Fine-tuning notebook (LLM 04a): a shallow embedding of the script

    The notebook is a linear Python script that sequences calls into
    external libraries (Spark, Hugging Face [transformers] and [datasets],
    pandas, DeepSpeed through [TrainingArguments]).  The script is embedded
    as a program over the signature of those calls; the libraries answer
    through an arbitrary [library] oracle, so every statement below holds
    whatever the libraries return or raise. *)

From Stdlib Require Import ZArith Lia.
From stdpp Require Import base option strings list gmap fin_maps.

Set Warnings "-register-all".

Local Open Scope string_scope.
Local Open Scope list_scope.
Local Open Scope Z_scope.

(** ** Python values that the script touches *)

(** A value stored in a dataset column or a tensor row. *)
Inductive cell :=
| CStr (s : string)
| CInt (z : Z)
| CIds (ids : list Z).

(** A batch handed to a mapped function, a [Dataset] and a [BatchEncoding]
    are all mappings from a column name to a list of values. *)
Abbreviation column := (list cell) (only parsing).
Abbreviation batch := (gmap string (list cell)) (only parsing).
Abbreviation table := (gmap string (list cell)) (only parsing).

(** [DatasetDict]: split name to [Dataset], in insertion order. *)
Abbreviation dataset_dict := (list (string * gmap string (list cell))) (only parsing).

Inductive exn :=
| AssertionError (msg : string)
| KeyError (key : cell)
| TypeError (msg : string)
| ValueError (msg : string)
| LibraryError (cls msg : string).

Inductive result (A : Type) :=
| Ok (a : A)
| Err (e : exn).
Arguments Ok {A} a.
Arguments Err {A} e.

(** Literals of the DeepSpeed configuration dictionary.  [PyFloat m e] is the
    float literal [m]e[e], for instance [5e8]. *)
Inductive pyval :=
| PyInt (z : Z)
| PyFloat (mantissa exp10 : Z)
| PyStr (s : string)
| PyBool (b : bool)
| PyDict (items : list (string * pyval)).

Definition float_value (v : pyval) : option Z :=
  match v with
  | PyFloat m e => if 0 <=? e then Some (m * 10 ^ e) else None
  | _ => None
  end.

Fixpoint assoc {A} (k : string) (items : list (string * A)) : option A :=
  match items with
  | [] => None
  | (k', v) :: rest => if String.eqb k k' then Some v else assoc k rest
  end.

(** [d[k]] on a dictionary literal. *)
Definition py_get (k : string) (v : pyval) : option pyval :=
  match v with
  | PyDict items => assoc k items
  | _ => None
  end.

(** [d[k1][k2]...] *)
Fixpoint py_path (ks : list string) (v : pyval) : option pyval :=
  match ks with
  | [] => Some v
  | k :: ks' => match py_get k v with Some v' => py_path ks' v' | None => None end
  end.

(** Objects owned by the libraries are opaque handles. *)
Inductive pyclass :=
| T5TokenizerFast
| Seq2SeqLM
| TrainingArgs
| Collator
| TrainerObj
| PandasDataFrame.

Record obj (c : pyclass) := Obj { obj_id : N }.
Arguments Obj {c} obj_id.
Arguments obj_id {c} o.

(** [DA], defined by [%run ../Includes/Classroom-Setup]. *)
Record DBAcademyHelper := {
  username : string;
  working_dir : string;   (* DA.paths.working_dir *)
  datasets : string       (* DA.paths.datasets *)
}.

(** [tempfile.TemporaryDirectory]: the script reads [.name]. *)
Record TemporaryDirectory := { name : string }.

(** ** The calls the script makes into its environment *)

Inductive call : Type → Type :=
| spark_conf_get (key : string) : call string
| magic (line : string) : call unit
| run_notebook (path : string) : call DBAcademyHelper
| print (s : string) : call unit
| tempfile_TemporaryDirectory : call TemporaryDirectory
| load_dataset (path : string) : call dataset_dict
| DatasetDict_map_enter (d : dataset_dict) (batched : bool)
    (remove_columns : list string) : call unit
| AutoTokenizer_from_pretrained (checkpoint cache_dir : string)
    : call (obj T5TokenizerFast)
| tokenizer_call (tokenizer : obj T5TokenizerFast) (text : column)
    (text_target : option (list string)) (return_tensors : string)
    (truncation padding : bool) : call batch
| TrainingArguments (output_dir : string)
    (num_train_epochs per_device_train_batch_size : Z)
    (optim : option string) (deepspeed : option pyval)
    (report_to : list string) : call (obj TrainingArgs)
| AutoModelForSeq2SeqLM_from_pretrained (path : string)
    (cache_dir : option string) : call (obj Seq2SeqLM)
| DataCollatorWithPadding (tokenizer : obj T5TokenizerFast) : call (obj Collator)
| Trainer (model : obj Seq2SeqLM) (args : obj TrainingArgs)
    (train_dataset eval_dataset : table) (tokenizer : obj T5TokenizerFast)
    (data_collator : obj Collator) : call (obj TrainerObj)
| Trainer_train (trainer : obj TrainerObj) : call unit
| Trainer_save_model (trainer : obj TrainerObj) (output_dir : option string)
    : call unit
| Trainer_save_state (trainer : obj TrainerObj) : call unit
| Model_generate (model : obj Seq2SeqLM) (input_ids attention_mask : column)
    : call column
| tokenizer_batch_decode (tokenizer : obj T5TokenizerFast) (sequences : column)
    (skip_special_tokens : bool) : call (list string)
| pd_DataFrame (data : list (string * string)) (columns : list string)
    : call (obj PandasDataFrame)
| display (df : obj PandasDataFrame) : call unit
| TemporaryDirectory_cleanup (d : TemporaryDirectory) : call unit.

(** ** Programs

    A script is a tree of calls.  [Assert] and [SetEnv] are the two statements
    of the script that act on the interpreter itself; [Try] is Python's
    [try]/[except], which the notebook never uses. *)
Inductive Prog (R : Type) : Type :=
| Ret (r : R)
| Raise (e : exn)
| Assert (cond : bool) (msg : string) (k : Prog R)
| SetEnv (key value : string) (k : Prog R)
| Vis {X} (c : call X) (k : X → Prog R)
| Try {X} (body : Prog X) (except : exn → Prog X) (k : X → Prog R).
Arguments Ret {R} r.
Arguments Raise {R} e.
Arguments Assert {R} cond msg k.
Arguments SetEnv {R} key value k.
Arguments Vis {R X} c k.
Arguments Try {R X} body except k.

Fixpoint bind {A B} (p : Prog A) (f : A → Prog B) : Prog B :=
  match p with
  | Ret r => f r
  | Raise e => Raise e
  | Assert c msg k => Assert c msg (bind k f)
  | SetEnv key v k => SetEnv key v (bind k f)
  | Vis c k => Vis c (λ x, bind (k x) f)
  | Try body except k => Try body except (λ x, bind (k x) f)
  end.

#[global] Instance Prog_ret : MRet Prog := @Ret.
#[global] Instance Prog_bind : MBind Prog := λ A B f p, bind p f.

Definition do {X} (c : call X) : Prog X := Vis c Ret.

(** ** Runs

    What the environment has seen so far and what it answered. *)
Inductive entry :=
| Called {X} (c : call X) (r : result X)
| Asserted (cond : bool) (msg : string)
| EnvSet (key value : string).

(** The libraries: an answer (a value or an exception) to every call, which
    may depend on everything that happened before (most recent first). *)
Definition library := ∀ X, list entry → call X → result X.

Inductive outcome (R : Type) :=
| Done (r : R)
| Failed (e : exn).
Arguments Done {R} r.
Arguments Failed {R} e.

Section Run.
Variable lib : library.

(** [run p hist] is the log of [p] started after history [hist] (oldest
    entry first in the log) and how [p] ended. *)
Fixpoint run {R} (p : Prog R) (hist : list entry) : list entry * outcome R :=
  match p with
  | Ret r => ([], Done r)
  | Raise e => ([], Failed e)
  | Assert c msg k =>
      if c then
        let r := run k (Asserted c msg :: hist) in (Asserted c msg :: r.1, r.2)
      else ([Asserted c msg], Failed (AssertionError msg))
  | SetEnv key v k =>
      let r := run k (EnvSet key v :: hist) in (EnvSet key v :: r.1, r.2)
  | Vis c k =>
      match lib _ hist c with
      | Ok x =>
          let r := run (k x) (Called c (Ok x) :: hist) in
          (Called c (Ok x) :: r.1, r.2)
      | Err e => ([Called c (Err e)], Failed e)
      end
  | Try body except k =>
      let r := run body hist in
      match r.2 with
      | Done x =>
          let r' := run (k x) (rev r.1 ++ hist) in (r.1 ++ r'.1, r'.2)
      | Failed e =>
          let h := run (except e) (rev r.1 ++ hist) in
          match h.2 with
          | Done x =>
              let r' := run (k x) (rev h.1 ++ rev r.1 ++ hist) in
              (r.1 ++ h.1 ++ r'.1, r'.2)
          | Failed e' => (r.1 ++ h.1, Failed e')
          end
      end
  end.
End Run.

(** ** Python built-ins used by the script *)

(** [needle in hay] on strings. *)
Fixpoint str_contains (needle hay : string) : bool :=
  String.prefix needle hay ||
  match hay with
  | EmptyString => false
  | String _ rest => str_contains needle rest
  end.

Definition str_startswith (p s : string) : bool := String.prefix p s.
Definition str_endswith (p s : string) : bool :=
  String.prefix (String.rev p) (String.rev s).

(** [os.path.join(a, b)] (posixpath). *)
Definition os_path_join (a b : string) : string :=
  if str_startswith "/" b then b
  else if String.eqb a "" || str_endswith "/" a then a +:+ b
  else a +:+ "/" +:+ b.

(** [d[k]] on a mapping with string keys. *)
Definition getitem {V} (d : gmap string V) (k : string) : Prog V :=
  match d !! k with
  | Some v => Ret v
  | None => Raise (KeyError (CStr k))
  end.

(** [d[k]] on a [DatasetDict]. *)
Definition split_getitem (d : dataset_dict) (k : string) : Prog table :=
  match assoc k d with
  | Some v => Ret v
  | None => Raise (KeyError (CStr k))
  end.

(** [label_map[y]] for a dictionary with integer keys. *)
Definition dict_getitem (label_map : gmap Z string) (y : cell) : Prog string :=
  match y with
  | CInt z =>
      match label_map !! z with
      | Some s => Ret s
      | None => Raise (KeyError y)
      end
  | CStr _ => Raise (KeyError y)
  | CIds _ => Raise (TypeError "unhashable type: 'list'")
  end.

(** ** The tokenization closure *)

Definition to_tokens (tokenizer : obj T5TokenizerFast)
    (label_map : gmap Z string) : batch → Prog batch :=
  let apply (x : batch) : Prog batch :=
    labels ← getitem x "label";
    target_labels ← mapM (dict_getitem label_map) labels;
    text ← getitem x "text";
    token_res ← do (tokenizer_call tokenizer text (Some target_labels)
                      "pt" true true);
    mret token_res
  in apply.

Definition imdb_label_lookup : gmap Z string :=
  {[ 0 := "negative"; 1 := "positive"; -1 := "unknown" ]}.

(** ** [datasets]: mapping a function over a dataset

    [Dataset.map(function, batched=True, remove_columns=...)] belongs to the
    external [datasets] package; the closure above runs inside it, so its
    documented behaviour is spelled out here: the rows are cut into batches
    of the default size, the function is called on every batch, the listed
    columns are dropped from the input batch, the columns the function
    returns are written over what is left, and the resulting batches are
    concatenated.  On a dataset without rows only the columns are dropped.
    A column to remove that the dataset does not have is a [ValueError].
    Entering the call is itself an event, [DatasetDict_map_enter]; the calls
    the function makes follow it in the log. *)

Definition default_batch_size : nat := 1000.

Definition num_rows (t : table) : nat :=
  map_fold (λ _ (c : column) n, Nat.max (length c) n) 0%nat t.

Definition slice (start len : nat) (t : table) : table :=
  (λ c : column, take len (drop start c)) <$> t.

Definition batches (size : nat) (t : table) : list table :=
  (λ i, slice (i * size) size t) <$> seq 0 ((num_rows t + size - 1) / size).

Definition remove_columns (cols : list string) (t : table) : table :=
  foldr delete t cols.

Definition concat_tables (t1 t2 : table) : table :=
  union_with (λ c1 c2 : column, Some (c1 ++ c2)) t1 t2.

Fixpoint map_batches (function : batch → Prog batch) (remove : list string)
    (bs : list batch) : Prog table :=
  match bs with
  | [] => mret ∅
  | b :: bs' =>
      processed ← function b;
      rest ← map_batches function remove bs';
      mret (concat_tables (processed ∪ remove_columns remove b) rest)
  end.

Definition has_columns (cols : list string) (t : table) : bool :=
  forallb (λ c, bool_decide (is_Some (t !! c))) cols.

Definition Dataset_map (function : batch → Prog batch) (remove : list string)
    (t : table) : Prog table :=
  if negb (has_columns remove t)
  then Raise (ValueError "Column to remove not in the dataset")
  else if (num_rows t =? 0)%nat then mret (remove_columns remove t)
  else map_batches function remove (batches default_batch_size t).

(** Every split in turn. *)
Fixpoint map_splits (function : batch → Prog batch) (remove : list string)
    (d : dataset_dict) : Prog dataset_dict :=
  match d with
  | [] => mret []
  | (k, t) :: d' =>
      t' ← Dataset_map function remove t;
      rest ← map_splits function remove d';
      mret ((k, t') :: rest)
  end.

(** [d.map(function, batched=True, remove_columns=remove)] on a
    [DatasetDict]. *)
Definition DatasetDict_map (function : batch → Prog batch)
    (remove : list string) (d : dataset_dict) : Prog dataset_dict :=
  do (DatasetDict_map_enter d true remove);;
  map_splits function remove d.

(** ** The DeepSpeed configuration *)

Definition zero_config : pyval :=
  PyDict [
    ("zero_optimization", PyDict [
      ("stage", PyInt 2);
      ("offload_optimizer",
         PyDict [("device", PyStr "cpu"); ("pin_memory", PyBool true)]);
      ("allgather_partitions", PyBool true);
      ("allgather_bucket_size", PyFloat 5 8);
      ("overlap_comm", PyBool true);
      ("reduce_scatter", PyBool true);
      ("reduce_bucket_size", PyFloat 5 8);
      ("contiguous_gradients", PyBool true)
    ]);
    ("optimizer", PyDict [
      ("type", PyStr "AdamW");
      ("params", PyDict [
        ("lr", PyStr "auto");
        ("betas", PyStr "auto");
        ("eps", PyStr "auto");
        ("weight_decay", PyStr "auto");
        ("torch_adam", PyBool true)
      ])
    ]);
    ("train_batch_size", PyStr "auto")
  ].

(** ** The notebook, cell by cell *)

Definition gpu_message : string :=
  "THIS LAB REQUIRES THAT A GPU MACHINE AND RUNTIME IS UTILIZED.".

Definition install_cuda_libraries : string :=
"%sh
mkdir -p /tmp/externals/cuda

wget https://developer.download.nvidia.com/compute/cuda/repos/ubuntu2004/x86_64/libcurand-dev-11-7_10.2.10.50-1_amd64.deb -P /tmp/externals/cuda
wget https://developer.download.nvidia.com/compute/cuda/repos/ubuntu2004/x86_64/libcusparse-dev-11-7_11.7.3.50-1_amd64.deb -P /tmp/externals/cuda
wget https://developer.download.nvidia.com/compute/cuda/repos/ubuntu2004/x86_64/libcublas-dev-11-7_11.10.1.25-1_amd64.deb -P /tmp/externals/cuda
wget https://developer.download.nvidia.com/compute/cuda/repos/ubuntu2004/x86_64/libcusolver-dev-11-7_11.4.0.1-1_amd64.deb -P /tmp/externals/cuda

dpkg -i /tmp/externals/cuda/libcurand-dev-11-7_10.2.10.50-1_amd64.deb
dpkg -i /tmp/externals/cuda/libcusparse-dev-11-7_11.7.3.50-1_amd64.deb
dpkg -i /tmp/externals/cuda/libcublas-dev-11-7_11.10.1.25-1_amd64.deb
dpkg -i /tmp/externals/cuda/libcusolver-dev-11-7_11.4.0.1-1_amd64.deb
".

Definition reviews : list string := [
"
'Despicable Me' is a cute and funny movie, but the plot is predictable and the characters are not very well-developed. Overall, it's a good movie for kids, but adults might find it a bit boring.";
" 'The Batman' is a dark and gritty take on the Caped Crusader, starring Robert Pattinson as Bruce Wayne. The film is a well-made crime thriller with strong performances and visuals, but it may be too slow-paced and violent for some viewers.
";
"
The Phantom Menace is a visually stunning film with some great action sequences, but the plot is slow-paced and the dialogue is often wooden. It is a mixed bag that will appeal to some fans of the Star Wars franchise, but may disappoint others.
";
"
I'm not sure if The Matrix and the two sequels were meant to have a tigh consistency but I don't think they quite fit together. They seem to have a reasonably solid arc but the features from the first aren't in the second and third as much, instead the second and third focus more on CGI battles and more visuals. I like them but for different reasons, so if I'm supposed to rate the trilogy I'm not sure what to say.
"
].

Definition review : list string := [
"
           I'm not sure if The Matrix and the two sequels were meant to have a tight consistency but I don't think they quite fit together. They seem to have a reasonably solid arc but the features from the first aren't in the second and third as much, instead the second and third focus more on CGI battles and more visuals. I like them but for different reasons, so if I'm supposed to rate the trilogy I'm not sure what to say."
].

Definition notebook : Prog unit :=
  sparkVersion ← do (spark_conf_get
                       "spark.databricks.clusterUsageTags.sparkVersion");
  Assert (str_contains "gpu" sparkVersion) gpu_message (
  (* Classroom Setup *)
  do (magic install_cuda_libraries);;
  do (magic "%pip install deepspeed==0.9.1 py-cpuinfo==9.0.0");;
  DA ← do (run_notebook "../Includes/Classroom-Setup");
  do (print ("Username:          " +:+ username DA));;
  do (print ("Working Directory: " +:+ working_dir DA));;
  do (magic "%load_ext autoreload");;
  do (magic "%autoreload 2");;
  tmpdir ← do tempfile_TemporaryDirectory;
  let local_training_root := name tmpdir in
  (* Fine-Tuning, step 1: data preparation *)
  imdb_ds ← do (load_dataset "imdb");
  (* step 2: select pre-trained model *)
  let model_checkpoint := "t5-small" in
  tokenizer ← do (AutoTokenizer_from_pretrained model_checkpoint (datasets DA));
  let imdb_to_tokens := to_tokens tokenizer imdb_label_lookup in
  tokenized_dataset ← DatasetDict_map imdb_to_tokens ["text"; "label"] imdb_ds;
  (* step 3: setup training *)
  let checkpoint_name := "test-trainer" in
  let local_checkpoint_path := os_path_join local_training_root checkpoint_name in
  training_args ← do (TrainingArguments local_checkpoint_path 1 16
                        (Some "adamw_torch") None ["tensorboard"]);
  model ← do (AutoModelForSeq2SeqLM_from_pretrained model_checkpoint
                (Some (datasets DA)));
  data_collator ← do (DataCollatorWithPadding tokenizer);
  train_dataset ← split_getitem tokenized_dataset "train";
  eval_dataset ← split_getitem tokenized_dataset "test";
  trainer ← do (Trainer model training_args train_dataset eval_dataset
                  tokenizer data_collator);
  (* step 4: train *)
  let tensorboard_display_dir := local_checkpoint_path +:+ "/runs" in
  do (magic "%load_ext tensorboard");;
  do (magic ("%tensorboard --logdir '" +:+ tensorboard_display_dir +:+ "'"));;
  do (Trainer_train trainer);;
  do (Trainer_save_model trainer None);;
  do (Trainer_save_state trainer);;
  let final_model_path :=
    working_dir DA +:+ "/llm04_fine_tuning/" +:+ checkpoint_name in
  do (Trainer_save_model trainer (Some final_model_path));;
  (* step 5: predict *)
  fine_tuned_model ← do (AutoModelForSeq2SeqLM_from_pretrained
                           final_model_path None);
  inputs ← do (tokenizer_call tokenizer (CStr <$> reviews) None "pt" true true);
  input_ids ← getitem inputs "input_ids";
  attention_mask ← getitem inputs "attention_mask";
  pred ← do (Model_generate fine_tuned_model input_ids attention_mask);
  decoded ← do (tokenizer_batch_decode tokenizer pred true);
  pdf ← do (pd_DataFrame (zip reviews decoded) ["review"; "classification"]);
  do (display pdf);;
  (* DeepSpeed: environment setup *)
  SetEnv "MASTER_ADDR" "localhost" (
  SetEnv "MASTER_PORT" "9994" (
  SetEnv "RANK" "0" (
  SetEnv "LOCAL_RANK" "0" (
  SetEnv "WORLD_SIZE" "1" (
  (* configuration: [zero_config] *)
  let model_checkpoint := "t5-base" in
  tokenizer ← do (AutoTokenizer_from_pretrained model_checkpoint (datasets DA));
  let imdb_to_tokens := to_tokens tokenizer imdb_label_lookup in
  tokenized_dataset ← DatasetDict_map imdb_to_tokens ["text"; "label"] imdb_ds;
  model ← do (AutoModelForSeq2SeqLM_from_pretrained model_checkpoint
                (Some (datasets DA)));
  (* train *)
  let checkpoint_name := "test-trainer-deepspeed" in
  let checkpoint_location := os_path_join local_training_root checkpoint_name in
  training_args ← do (TrainingArguments checkpoint_location 3 8
                        None (Some zero_config) ["tensorboard"]);
  data_collator ← do (DataCollatorWithPadding tokenizer);
  train_dataset ← split_getitem tokenized_dataset "train";
  eval_dataset ← split_getitem tokenized_dataset "test";
  trainer ← do (Trainer model training_args train_dataset eval_dataset
                  tokenizer data_collator);
  let tensorboard_display_dir := checkpoint_location +:+ "/runs" in
  do (magic "%load_ext tensorboard");;
  do (magic ("%tensorboard --logdir '" +:+ tensorboard_display_dir +:+ "'"));;
  do (Trainer_train trainer);;
  do (Trainer_save_model trainer None);;
  do (Trainer_save_state trainer);;
  let final_model_path :=
    working_dir DA +:+ "/llm04_fine_tuning/" +:+ checkpoint_name in
  do (Trainer_save_model trainer (Some final_model_path));;
  (* predict *)
  fine_tuned_model ← do (AutoModelForSeq2SeqLM_from_pretrained
                           final_model_path None);
  inputs ← do (tokenizer_call tokenizer (CStr <$> review) None "pt" true true);
  input_ids ← getitem inputs "input_ids";
  attention_mask ← getitem inputs "attention_mask";
  pred ← do (Model_generate fine_tuned_model input_ids attention_mask);
  decoded ← do (tokenizer_batch_decode tokenizer pred true);
  pdf ← do (pd_DataFrame (zip review decoded) ["review"; "classification"]);
  do (display pdf);;
  (* Clean up Classroom *)
  do (TemporaryDirectory_cleanup tmpdir)
  ))))))%string.

(** ** A sample environment

    A GPU runtime, a three-row IMDB-shaped dataset and libraries that always
    succeed.  It is used to exhibit concrete runs. *)

Definition sample_imdb : dataset_dict := [
  ("train", {[ "text" := [CStr "a fine film"; CStr "dull"];
               "label" := [CInt 1; CInt 0] ]});
  ("test", {[ "text" := [CStr "loved it"]; "label" := [CInt 1] ]});
  ("unsupervised", {[ "text" := [CStr "a film"]; "label" := [CInt (-1)] ]})
].

Definition sample_encoding (text : column) (text_target : option (list string))
    : batch :=
  let base : batch :=
    {[ "input_ids" := (λ _, CIds [37; 1]) <$> text;
       "attention_mask" := (λ _, CIds [1; 1]) <$> text ]} in
  match text_target with
  | Some targets => <["labels" := (λ _, CIds [1465; 1]) <$> targets]> base
  | None => base
  end.

Definition fresh {c} (hist : list entry) : obj c := Obj (N.of_nat (length hist)).

Definition sample_lib (runtime : string) : library := λ X hist c,
  match c in call X return result X with
  | spark_conf_get _ => Ok runtime
  | magic _ => Ok tt
  | run_notebook _ =>
      Ok {| username := "student@example.com";
            working_dir := "dbfs:/mnt/dbacademy-users/student/llm";
            datasets := "/dbfs/mnt/dbacademy-datasets/llm/v01" |}
  | print _ => Ok tt
  | tempfile_TemporaryDirectory => Ok {| name := "/tmp/tmp8x2k1q0d" |}
  | load_dataset _ => Ok sample_imdb
  | DatasetDict_map_enter _ _ _ => Ok tt
  | AutoTokenizer_from_pretrained _ _ => Ok (fresh hist)
  | tokenizer_call _ text text_target _ _ _ =>
      Ok (sample_encoding text text_target)
  | TrainingArguments _ _ _ _ _ _ => Ok (fresh hist)
  | AutoModelForSeq2SeqLM_from_pretrained _ _ => Ok (fresh hist)
  | DataCollatorWithPadding _ => Ok (fresh hist)
  | Trainer _ _ _ _ _ _ => Ok (fresh hist)
  | Trainer_train _ => Ok tt
  | Trainer_save_model _ _ => Ok tt
  | Trainer_save_state _ => Ok tt
  | Model_generate _ input_ids _ => Ok ((λ _, CIds [0; 1465; 1]) <$> input_ids)
  | tokenizer_batch_decode _ sequences _ => Ok ((λ _, "positive") <$> sequences)
  | pd_DataFrame _ _ => Ok (fresh hist)
  | display _ => Ok tt
  | TemporaryDirectory_cleanup _ => Ok tt
  end.

Definition gpu_lib : library := sample_lib "13.3.x-gpu-ml-scala2.12".
Definition cpu_lib : library := sample_lib "13.3.x-cpu-ml-scala2.12".

(** ** Statements about every run *)

(** [p] contains no [try]/[except]. *)
Fixpoint no_try {R} (p : Prog R) : Prop :=
  match p with
  | Ret _ | Raise _ => True
  | Assert _ _ k | SetEnv _ _ k => no_try k
  | Vis _ k => ∀ x, no_try (k x)
  | Try _ _ _ => False
  end.

(** [Q] holds of the log and the outcome of [p], whatever the libraries
    answer and whatever happened before. *)
Definition always {R} (p : Prog R) (Q : list entry → outcome R → Prop) : Prop :=
  ∀ lib hist, Q (run lib p hist).1 (run lib p hist).2.

(** ** Observations on a log *)

Definition asserts (log : list entry) : list (bool * string) :=
  omap (λ e, match e with Asserted c msg => Some (c, msg) | _ => None end) log.

Definition env_writes (log : list entry) : list (string * string) :=
  omap (λ e, match e with EnvSet k v => Some (k, v) | _ => None end) log.

(** [os.environ] after the writes, oldest first. *)
Definition environ_after (writes : list (string * string))
    (environ : gmap string string) : gmap string string :=
  foldl (λ env kv, <[kv.1 := kv.2]> env) environ writes.

Definition deepspeed_configs (log : list entry) : list pyval :=
  omap (λ e, match e with
             | Called (TrainingArguments _ _ _ _ (Some cfg) _) _ => Some cfg
             | _ => None
             end) log.

(** The batch encodings the tokenizer returned. *)
Definition encoding_of (e : entry) : option batch :=
  match e with
  | Called (tokenizer_call _ _ _ _ _ _) (Ok enc) => Some enc
  | _ => None
  end.

Definition encodings (log : list entry) : list batch := omap encoding_of log.

(** The calls made by [to_tokens tokenizer _] while a dataset is mapped. *)
Definition map_call (tokenizer : obj T5TokenizerFast) (e : entry) : Prop :=
  ∃ text targets r,
    e = Called (tokenizer_call tokenizer text (Some targets) "pt" true true) r.

(** Every column of a mapped split is either a column of the raw split that
    was not to be removed, or a field of an encoding returned meanwhile. *)
Definition tokenized_from (remove : list string) (raw : dataset_dict)
    (log : list entry) (tokenized : dataset_dict) : Prop :=
  ∀ k (t' : table), assoc k tokenized = Some t' →
    ∃ t : table, assoc k raw = Some t ∧ has_columns remove t = true ∧
      ∀ c, is_Some (t' !! c) →
        (is_Some (t !! c) ∧ c ∉ remove) ∨
        (∃ enc : batch, enc ∈ encodings log ∧ is_Some (enc !! c)).

(** Directories: where checkpoints go, where models are persisted, what is
    cleaned up. *)
Definition tmp_roots (log : list entry) : list string :=
  omap (λ e, match e with
             | Called tempfile_TemporaryDirectory (Ok d) => Some (name d)
             | _ => None
             end) log.

Definition output_dirs (log : list entry) : list string :=
  omap (λ e, match e with
             | Called (TrainingArguments dir _ _ _ _ _) _ => Some dir
             | _ => None
             end) log.

Definition persisted (log : list entry) : list string :=
  omap (λ e, match e with
             | Called (Trainer_save_model _ (Some dir)) _ => Some dir
             | _ => None
             end) log.

Definition cleaned (log : list entry) : list string :=
  omap (λ e, match e with
             | Called (TemporaryDirectory_cleanup d) _ => Some (name d)
             | _ => None
             end) log.

(** ** Steps of the pipeline *)

Inductive stage :=
| LoadDataset
| LoadTokenizer
| MapTokenize
| TrainingConfiguration
| ConstructModel
| ConstructTrainer
| Train
| Save
| Reload
| Predict
| Display.

#[global] Instance stage_eq_dec : EqDecision stage.
Proof. solve_decision. Defined.

(** The step a call belongs to.  A tokenizer call with text targets is the
    tokenization mapped over the dataset, one without prepares the input of
    a prediction; [from_pretrained] with a cache directory fetches the
    pre-trained model, without one it loads from a path. *)
Definition stage_of (e : entry) : option stage :=
  match e with
  | Called c _ =>
      match c with
      | load_dataset _ => Some LoadDataset
      | AutoTokenizer_from_pretrained _ _ => Some LoadTokenizer
      | DatasetDict_map_enter _ _ _ => Some MapTokenize
      | tokenizer_call _ _ (Some _) _ _ _ => Some MapTokenize
      | tokenizer_call _ _ None _ _ _ => Some Predict
      | TrainingArguments _ _ _ _ _ _ => Some TrainingConfiguration
      | AutoModelForSeq2SeqLM_from_pretrained _ (Some _) => Some ConstructModel
      | AutoModelForSeq2SeqLM_from_pretrained _ None => Some Reload
      | DataCollatorWithPadding _ => Some ConstructTrainer
      | Trainer _ _ _ _ _ _ => Some ConstructTrainer
      | Trainer_train _ => Some Train
      | Trainer_save_model _ _ => Some Save
      | Trainer_save_state _ => Some Save
      | Model_generate _ _ _ => Some Predict
      | tokenizer_batch_decode _ _ _ => Some Display
      | pd_DataFrame _ _ => Some Display
      | display _ => Some Display
      | _ => None
      end
  | _ => None
  end.

(** The steps of a log in order, consecutive calls of one step counted once. *)
Fixpoint stages_from (cur : option stage) (log : list entry) : list stage :=
  match log with
  | [] => []
  | e :: log' =>
      match stage_of e with
      | None => stages_from cur log'
      | Some s =>
          if decide (cur = Some s) then stages_from cur log'
          else s :: stages_from (Some s) log'
      end
  end.

Definition stages (log : list entry) : list stage := stages_from None log.

Definition first_pipeline : list stage :=
  [LoadDataset; LoadTokenizer; MapTokenize; TrainingConfiguration;
   ConstructModel; ConstructTrainer; Train; Save; Reload; Predict; Display].

Definition deepspeed_pipeline : list stage :=
  [LoadTokenizer; MapTokenize; ConstructModel; TrainingConfiguration;
   ConstructTrainer; Train; Save; Reload; Predict; Display].

(** ** A monitor: predict only with a trained, saved and reloaded model *)

#[global] Instance obj_eq_dec c : EqDecision (obj c).
Proof. solve_decision. Defined.

Record monitor := {
  trained : list (obj TrainerObj);   (* trainers whose [train] returned *)
  saved : list string;               (* paths a trained trainer was saved to *)
  reloaded : list (obj Seq2SeqLM)    (* models loaded from a saved path *)
}.

Definition monitor_init : monitor :=
  {| trained := []; saved := []; reloaded := [] |}.

Definition monitor_step (s : monitor) (e : entry) : option monitor :=
  match e with
  | Called (Trainer_train t) (Ok _) =>
      Some {| trained := t :: trained s; saved := saved s;
              reloaded := reloaded s |}
  | Called (Trainer_save_model t (Some dir)) (Ok _) =>
      if bool_decide (t ∈ trained s)
      then Some {| trained := trained s; saved := dir :: saved s;
                   reloaded := reloaded s |}
      else Some s
  | Called (AutoModelForSeq2SeqLM_from_pretrained dir _) (Ok m) =>
      if bool_decide (dir ∈ saved s)
      then Some {| trained := trained s; saved := saved s;
                   reloaded := m :: reloaded s |}
      else Some s
  | Called (Model_generate m _ _) _ =>
      if bool_decide (m ∈ reloaded s) then Some s else None
  | _ => Some s
  end.

Fixpoint monitor_run (s : monitor) (log : list entry) : option monitor :=
  match log with
  | [] => Some s
  | e :: log' =>
      match monitor_step s e with
      | Some s' => monitor_run s' log'
      | None => None
      end
  end.

Definition guarded (log : list entry) : Prop :=
  is_Some (monitor_run monitor_init log).

(** ** Statements about the tokenization closure *)

(** The label strings, as the notebook's text gives them:
    -1 unknown, 0 negative, 1 positive. *)
Definition label_string (z : Z) (s : string) : Prop :=
  (z = 0 ∧ s = "negative") ∨ (z = 1 ∧ s = "positive") ∨
  (z = -1 ∧ s = "unknown").

(** What a call of the closure can do: fail before any call, or call the
    tokenizer once, with text targets, and hand back what it answers. *)
Definition tokenize_outcome (tokenizer : obj T5TokenizerFast)
    (l : list entry) (o : outcome batch) : Prop :=
  (l = [] ∧ ∃ e, o = Failed e) ∨
  (∃ text targets r,
     l = [Called (tokenizer_call tokenizer text (Some targets) "pt" true true) r]
     ∧ o = match r with Ok enc => Done enc | Err e => Failed e end).

(** Where the columns of a mapped table come from. *)
Definition columns_from (remove : list string) (srcs : list batch)
    (l : list entry) (t' : table) : Prop :=
  ∀ c, is_Some (t' !! c) →
    (∃ b : batch, b ∈ srcs ∧ is_Some (b !! c) ∧ c ∉ remove) ∨
    (∃ enc : batch, enc ∈ encodings l ∧ is_Some (enc !! c)).

(** ** Statements about the whole notebook *)

Definition topology : list (string * string) :=
  [("MASTER_ADDR", "localhost"); ("MASTER_PORT", "9994"); ("RANK", "0");
   ("LOCAL_RANK", "0"); ("WORLD_SIZE", "1")].

Definition version_key : string :=
  "spark.databricks.clusterUsageTags.sparkVersion".

(** The persistent path of a checkpoint: [f"{working_dir}/llm04_fine_tuning/{checkpoint_name}"]. *)
Definition final_path (DA : DBAcademyHelper) (checkpoint_name : string) : string :=
  working_dir DA +:+ "/llm04_fine_tuning/" +:+ checkpoint_name.

(** A trained model is saved to [path], loaded back from it, run on the
    tokenized [texts], and its output is decoded and displayed beside them. *)
Definition classifies_by_generation (path : string) (texts : list string)
    (log : list entry) : Prop :=
  ∃ tokenizer checkpoint cache trainer model inputs input_ids attention_mask
    pred decoded pdf,
    [Called (AutoTokenizer_from_pretrained checkpoint cache) (Ok tokenizer);
     Called (Trainer_train trainer) (Ok tt);
     Called (Trainer_save_model trainer (Some path)) (Ok tt);
     Called (AutoModelForSeq2SeqLM_from_pretrained path None) (Ok model);
     Called (tokenizer_call tokenizer (CStr <$> texts) None "pt" true true)
       (Ok inputs);
     Called (Model_generate model input_ids attention_mask) (Ok pred);
     Called (tokenizer_batch_decode tokenizer pred true) (Ok decoded);
     Called (pd_DataFrame (zip texts decoded) ["review"; "classification"])
       (Ok pdf);
     Called (display pdf) (Ok tt)] `sublist_of` log ∧
    inputs !! "input_ids" = Some input_ids ∧
    inputs !! "attention_mask" = Some attention_mask.

(** One training run: the trainer is configured with the checkpoint
    directory [dir], trained, saved there, and then saved to [final]. *)
Definition trains_and_persists (dir final : string) (log : list entry) : Prop :=
  ∃ epochs batch_size optim deepspeed report_to args model train_dataset
    eval_dataset tokenizer data_collator trainer,
    [Called (TrainingArguments dir epochs batch_size optim deepspeed report_to)
       (Ok args);
     Called (Trainer model args train_dataset eval_dataset tokenizer
               data_collator) (Ok trainer);
     Called (Trainer_train trainer) (Ok tt);
     Called (Trainer_save_model trainer None) (Ok tt);
     Called (Trainer_save_state trainer) (Ok tt);
     Called (Trainer_save_model trainer (Some final)) (Ok tt)] `sublist_of` log.

Definition checkpoint_layout (log : list entry) : Prop :=
  ∃ DA tmpdir,
    let dir1 := os_path_join (name tmpdir) "test-trainer" in
    let dir2 := os_path_join (name tmpdir) "test-trainer-deepspeed" in
    Called (run_notebook "../Includes/Classroom-Setup") (Ok DA) ∈ log ∧
    tmp_roots log = [name tmpdir] ∧
    output_dirs log = [dir1; dir2] ∧
    str_startswith (name tmpdir) dir1 = true ∧
    str_startswith (name tmpdir) dir2 = true ∧
    trains_and_persists dir1 (final_path DA "test-trainer") log ∧
    trains_and_persists dir2 (final_path DA "test-trainer-deepspeed") log ∧
    persisted log = [final_path DA "test-trainer";
                     final_path DA "test-trainer-deepspeed"] ∧
    cleaned log = [name tmpdir] ∧
    last log = Some (Called (TemporaryDirectory_cleanup tmpdir) (Ok tt)).

(** The exception a library raised in answer to a call. *)
Definition raised_by_library (e : entry) : option exn :=
  match e with
  | Called _ (Err x) => Some x
  | _ => None
  end.

(** ** Statements about the tokenized dataset *)

Definition loaded_datasets (log : list entry) : list dataset_dict :=
  omap (λ e, match e with
             | Called (load_dataset _) (Ok ds) => Some ds
             | _ => None
             end) log.

(** The training and evaluation datasets handed to a [Trainer]. *)
Definition trainer_datasets (log : list entry) : list (table * table) :=
  omap (λ e, match e with
             | Called (Trainer _ _ train_dataset eval_dataset _ _) _ =>
                 Some (train_dataset, eval_dataset)
             | _ => None
             end) log.

(** If [t] has a column [c], it is a field of a batch encoding that the
    tokenizer returned. *)
Definition column_encoded (log : list entry) (t : table) (c : string) : Prop :=
  is_Some (t !! c) →
  ∃ enc : batch, enc ∈ encodings log ∧ is_Some (enc !! c).

(** Every split of the raw dataset has no other column than [cols]. *)
Definition raw_schema (cols : list string) (ds : dataset_dict) : Prop :=
  ∀ k (t : table) c, assoc k ds = Some t → is_Some (t !! c) → c ∈ cols.

(** The datasets handed to the trainers hold encodings only: a column named
    like a removed raw column can only be a field of an encoding, and so can
    every column when the raw dataset had no other columns. *)
Definition tokenized_only (cols : list string) (trainers : list (table * table))
    (encs : list batch) (loaded : list dataset_dict) : Prop :=
  ∀ train eval (t : table), (train, eval) ∈ trainers → t = train ∨ t = eval →
    ∀ c, c ∈ cols ∨ (∀ ds, ds ∈ loaded → raw_schema cols ds) →
      is_Some (t !! c) → ∃ enc : batch, enc ∈ encs ∧ is_Some (enc !! c).

(** The [map] calls: dataset, [batched], [remove_columns]. *)
Definition map_enters (log : list entry)
    : list (dataset_dict * bool * list string) :=
  omap (λ e, match e with
             | Called (DatasetDict_map_enter d batched remove) _ =>
                 Some (d, batched, remove)
             | _ => None
             end) log.

(** [model] was obtained, within [log], by training a trainer, saving it to a
    path and loading the model back from that path. *)
Definition trained_saved_reloaded (model : obj Seq2SeqLM) (log : list entry)
    : Prop :=
  ∃ trainer dir cache,
    [Called (Trainer_train trainer) (Ok tt);
     Called (Trainer_save_model trainer (Some dir)) (Ok tt);
     Called (AutoModelForSeq2SeqLM_from_pretrained dir cache) (Ok model)]
      `sublist_of` log.

Definition monitor_inv (s : monitor) (log : list entry) : Prop :=
  (∀ t, t ∈ trained s → [Called (Trainer_train t) (Ok tt)] `sublist_of` log) ∧
  (∀ d, d ∈ saved s → ∃ t,
     [Called (Trainer_train t) (Ok tt);
      Called (Trainer_save_model t (Some d)) (Ok tt)] `sublist_of` log) ∧
  (∀ m, m ∈ reloaded s → trained_saved_reloaded m log).

(** A library that runs out of memory when training starts. *)
Definition oom : exn := LibraryError "OutOfMemoryError" "CUDA out of memory".

Definition oom_lib : library := λ X hist c,
  match c in call X return result X with
  | Trainer_train _ => Err oom
  | c' => gpu_lib _ hist c'
  end.

(** ** Further observations *)

(** Temporary directories whose clean-up returned. *)
Definition cleaned_up (log : list entry) : list string :=
  omap (λ e, match e with
             | Called (TemporaryDirectory_cleanup d) (Ok _) => Some (name d)
             | _ => None
             end) log.

(** The environment variables written so far, at each call of [train]. *)
Fixpoint environ_at_train (writes : list (string * string)) (log : list entry)
    : list (list (string * string)) :=
  match log with
  | [] => []
  | e :: log' =>
      match e with
      | EnvSet k v => environ_at_train (writes ++ [(k, v)]) log'
      | Called (Trainer_train _) _ => writes :: environ_at_train writes log'
      | _ => environ_at_train writes log'
      end
  end.

(** Every call that takes a tokenizer takes the one loaded last. *)
Fixpoint uses_current_tokenizer (cur : option (obj T5TokenizerFast))
    (log : list entry) : Prop :=
  match log with
  | [] => True
  | e :: log' =>
      match e with
      | Called (AutoTokenizer_from_pretrained _ _) (Ok tok) =>
          uses_current_tokenizer (Some tok) log'
      | Called (tokenizer_call tok _ _ _ _ _) _ =>
          cur = Some tok ∧ uses_current_tokenizer cur log'
      | Called (DataCollatorWithPadding tok) _ =>
          cur = Some tok ∧ uses_current_tokenizer cur log'
      | Called (Trainer _ _ _ _ tok _) _ =>
          cur = Some tok ∧ uses_current_tokenizer cur log'
      | Called (tokenizer_batch_decode tok _ _) _ =>
          cur = Some tok ∧ uses_current_tokenizer cur log'
      | _ => uses_current_tokenizer cur log'
      end
  end.

(** Checkpoint name and cache directory of the tokenizers and of the
    pre-trained models that were asked for. *)
Definition tokenizer_checkpoints (log : list entry) : list (string * string) :=
  omap (λ e, match e with
             | Called (AutoTokenizer_from_pretrained ckpt cache) _ =>
                 Some (ckpt, cache)
             | _ => None
             end) log.

Definition model_checkpoints (log : list entry) : list (string * string) :=
  omap (λ e, match e with
             | Called (AutoModelForSeq2SeqLM_from_pretrained ckpt (Some cache)) _ =>
                 Some (ckpt, cache)
             | _ => None
             end) log.

Definition classroom (log : list entry) : list DBAcademyHelper :=
  omap (λ e, match e with
             | Called (run_notebook _) (Ok DA) => Some DA
             | _ => None
             end) log.

(** TensorBoard is pointed at the "runs" directory of the checkpoint
    directory [dir] before the trainer configured with [dir] is trained. *)
Definition tensorboard_watches (dir : string) (log : list entry) : Prop :=
  ∃ epochs batch_size optim deepspeed report_to args model train_dataset
    eval_dataset tokenizer data_collator trainer,
    [Called (TrainingArguments dir epochs batch_size optim deepspeed report_to)
       (Ok args);
     Called (Trainer model args train_dataset eval_dataset tokenizer
               data_collator) (Ok trainer);
     Called (magic "%load_ext tensorboard") (Ok tt);
     Called (magic ("%tensorboard --logdir '" +:+ (dir +:+ "/runs") +:+ "'"))
       (Ok tt);
     Called (Trainer_train trainer) (Ok tt)] `sublist_of` log.

(** [inner] is [outer] or lies below it. *)
Definition path_under (outer inner : string) : bool :=
  String.eqb outer inner || str_startswith (outer +:+ "/") inner.

(** The text targets of the tokenizer calls that have some. *)
Definition targets_of (e : entry) : option (list string) :=
  match e with
  | Called (tokenizer_call _ _ (Some targets) _ _ _) _ => Some targets
  | _ => None
  end.

Definition text_targets (log : list entry) : list (list string) :=
  omap targets_of log.

Definition label_strings : list string := ["negative"; "positive"; "unknown"].

Definition label_targets (e : entry) : Prop :=
  ∀ targets, targets_of e = Some targets →
    Forall (λ s, s ∈ label_strings) targets.



(** * Proofs *)

#[local] Arguments String.append : simpl never.
#[local] Arguments os_path_join : simpl never.
#[local] Arguments str_contains : simpl never.

(** ** Running a sequence *)

Lemma run_bind lib {A B} (p : Prog A) (f : A → Prog B) hist :
  run lib (bind p f) hist =
  match (run lib p hist).2 with
  | Done x =>
      ((run lib p hist).1 ++ (run lib (f x) (rev (run lib p hist).1 ++ hist)).1,
       (run lib (f x) (rev (run lib p hist).1 ++ hist)).2)
  | Failed e => ((run lib p hist).1, Failed e)
  end.
Proof.
  revert B f hist.
  induction p as [R r|R e|R cond msg p IH|R key v p IH|R X c k IH
                 |R X body IHb except IHe k IH]; intros B f hist; simpl.
  - by destruct (run lib (f r) hist).
  - done.
  - destruct cond; [|done]. rewrite IH. simpl.
    rewrite <- (app_assoc (rev _) [_] hist). simpl.
    by destruct (run lib p _).2.
  - rewrite IH. simpl. rewrite <- (app_assoc (rev _) [_] hist). simpl.
    by destruct (run lib p _).2.
  - destruct (lib X hist c); [|done]. rewrite IH. simpl.
    rewrite <- (app_assoc (rev _) [_] hist). simpl.
    by destruct (run lib (k a) _).2.
  - destruct (run lib body hist).2 as [x|e].
    + rewrite IH. simpl.
      rewrite rev_app_distr, <- (app_assoc (rev _) (rev _) hist).
      destruct (run lib (k x) _).2; simpl; by rewrite <- ?app_assoc.
    + destruct (run lib (except e) _).2 as [x|e']; [|done].
      rewrite IH. simpl. rewrite !rev_app_distr, <- !app_assoc.
      destruct (run lib (k x) _).2; simpl; by rewrite <- ?app_assoc.
Qed.

Lemma no_try_bind {A B} (p : Prog A) (f : A → Prog B) :
  no_try p → (∀ x, no_try (f x)) → no_try (bind p f).
Proof.
  intros Hp Hf. induction p; simpl in *; auto.
Qed.

(** ** Rules for [always] *)

Lemma always_mono {R} (p : Prog R) (Q Q' : list entry → outcome R → Prop) :
  always p Q → (∀ l o, Q l o → Q' l o) → always p Q'.
Proof. intros H HQ lib hist. apply HQ, H. Qed.

Lemma always_ret {R} (r : R) Q : Q [] (Done r) → always (mret r) Q.
Proof. by intros H lib hist. Qed.

Lemma always_raise {R} e (Q : list entry → outcome R → Prop) :
  Q [] (Failed e) → always (Raise e) Q.
Proof. by intros H lib hist. Qed.

Lemma always_do {X} (c : call X) Q :
  (∀ e, Q [Called c (Err e)] (Failed e)) →
  (∀ x, Q [Called c (Ok x)] (Done x)) →
  always (do c) Q.
Proof.
  intros He Hx lib hist. simpl. destruct (lib X hist c); simpl; auto.
Qed.

Lemma always_bind {A B} (p : Prog A) (f : A → Prog B) Q :
  always p (λ l o,
    match o with
    | Done x => always (f x) (λ l' o', Q (l ++ l') o')
    | Failed e => Q l (Failed e)
    end) →
  always (p ≫= f) Q.
Proof.
  intros H lib hist. unfold mbind, Prog_bind. rewrite run_bind.
  specialize (H lib hist). simpl in H.
  destruct (run lib p hist).2; simpl; [apply H | done].
Qed.

Lemma always_do_bind {R X} (c : call X) (k : X → Prog R) Q :
  (∀ e, Q [Called c (Err e)] (Failed e)) →
  (∀ x, always (k x) (λ l o, Q (Called c (Ok x) :: l) o)) →
  always (do c ≫= k) Q.
Proof.
  intros He Hk. apply always_bind, always_do; [done|]. intros x. apply Hk.
Qed.

Lemma always_assert {R} c msg (k : Prog R) Q :
  (c = false → Q [Asserted false msg] (Failed (AssertionError msg))) →
  (c = true → always k (λ l o, Q (Asserted true msg :: l) o)) →
  always (Assert c msg k) Q.
Proof.
  intros Hf Ht lib hist. simpl. destruct c; simpl; [by apply Ht | by apply Hf].
Qed.

Lemma always_setenv {R} key v (k : Prog R) Q :
  always k (λ l o, Q (EnvSet key v :: l) o) → always (SetEnv key v k) Q.
Proof. intros H lib hist. simpl. apply H. Qed.

Lemma always_getitem_bind {R V} (d : gmap string V) key (k : V → Prog R) Q :
  (d !! key = None → Q [] (Failed (KeyError (CStr key)))) →
  (∀ v, d !! key = Some v → always (k v) Q) →
  always (getitem d key ≫= k) Q.
Proof.
  intros Hn Hs. unfold getitem. destruct (d !! key) as [v|].
  - intros lib hist. apply (Hs v eq_refl).
  - intros lib hist. by apply Hn.
Qed.

Lemma always_split_getitem_bind {R} (d : dataset_dict) key (k : table → Prog R)
    Q :
  (assoc key d = None → Q [] (Failed (KeyError (CStr key)))) →
  (∀ v, assoc key d = Some v → always (k v) Q) →
  always (split_getitem d key ≫= k) Q.
Proof.
  intros Hn Hs. unfold split_getitem. destruct (assoc key d) as [v|].
  - intros lib hist. apply (Hs v eq_refl).
  - intros lib hist. by apply Hn.
Qed.

(** ** The tokenization closure *)

Lemma imdb_label_lookup_Some z s :
  imdb_label_lookup !! z = Some s ↔ label_string z s.
Proof.
  unfold imdb_label_lookup, label_string.
  split.
  - intros H.
    destruct (decide (z = 0)) as [->|]; [left; split; [done|]; by simplify_map_eq|].
    destruct (decide (z = 1)) as [->|]; [right; left; split; [done|]; by simplify_map_eq|].
    destruct (decide (z = -1)) as [->|]; [right; right; split; [done|]; by simplify_map_eq|].
    by simplify_map_eq.
  - intros [ [-> ->] | [ [-> ->] | [-> ->] ] ]; by simplify_map_eq.
Qed.

Lemma imdb_label_lookup_None z :
  imdb_label_lookup !! z = None ↔ z ≠ 0 ∧ z ≠ 1 ∧ z ≠ -1.
Proof.
  unfold imdb_label_lookup. split.
  - intros H. repeat split; intros ->; by simplify_map_eq.
  - intros (?&?&?). by simplify_map_eq.
Qed.

Lemma mapM_cons {A B} (f : A → Prog B) x l :
  mapM f (x :: l) = y ← f x; k ← mapM f l; mret (y :: k).
Proof. reflexivity. Qed.

Lemma ret_bind {A B} (x : A) (f : A → Prog B) : Ret x ≫= f = f x.
Proof. reflexivity. Qed.

Lemma translate_labels labels :
  Forall (λ z, z = 0 ∨ z = 1 ∨ z = -1) labels →
  ∃ targets, Forall2 label_string labels targets ∧
    mapM (dict_getitem imdb_label_lookup) (CInt <$> labels) = Ret targets.
Proof.
  induction 1 as [|z labels Hz _ (targets & Hrel & Heq)].
  - by exists [].
  - assert (∃ s, imdb_label_lookup !! z = Some s) as [s Hs].
    { destruct Hz as [-> | [-> | ->] ]; eexists; by simplify_map_eq. }
    exists (s :: targets). split.
    + constructor; [by apply imdb_label_lookup_Some | done].
    + rewrite fmap_cons, mapM_cons, Heq. simpl. by rewrite Hs.
Qed.

(** C1.  On a batch whose labels are all 0, 1 or -1, the closure translates
    each label id to its string (0 negative, 1 positive, -1 unknown), passes
    exactly these strings to the tokenizer as the text targets, along with
    the batch's text, and returns the batch encoding the tokenizer answers. *)
Theorem to_tokens_translates_labels tokenizer (x : batch) labels text lib hist :
  x !! "label" = Some (CInt <$> labels) →
  x !! "text" = Some text →
  Forall (λ z, z = 0 ∨ z = 1 ∨ z = -1) labels →
  ∃ targets,
    Forall2 label_string labels targets ∧
    to_tokens tokenizer imdb_label_lookup x =
      do (tokenizer_call tokenizer text (Some targets) "pt" true true) ∧
    run lib (to_tokens tokenizer imdb_label_lookup x) hist =
      match lib _ hist (tokenizer_call tokenizer text (Some targets) "pt" true true) with
      | Ok enc => ([Called (tokenizer_call tokenizer text (Some targets) "pt" true true) (Ok enc)], Done enc)
      | Err e => ([Called (tokenizer_call tokenizer text (Some targets) "pt" true true) (Err e)], Failed e)
      end.
Proof.
  intros Hl Ht Hdom.
  destruct (translate_labels labels Hdom) as (targets & Hrel & Heq).
  exists targets. split; [done|].
  assert (to_tokens tokenizer imdb_label_lookup x =
      do (tokenizer_call tokenizer text (Some targets) "pt" true true)) as E.
  { unfold to_tokens, getitem. rewrite Hl, ret_bind, Heq, ret_bind, Ht, ret_bind.
    reflexivity. }
  split; [done|]. rewrite E. simpl. by destruct (lib _ _ _).
Qed.

Lemma mapM_dict_getitem lm (l : list cell) :
  (∃ ts, mapM (dict_getitem lm) l = Ret ts) ∨
  (∃ e, mapM (dict_getitem lm) l = Raise e).
Proof.
  induction l as [|y l IH]; [left; by exists []|].
  rewrite mapM_cons.
  assert ((∃ s, dict_getitem lm y = Ret s) ∨ (∃ e, dict_getitem lm y = Raise e))
    as [[s ->]|[e ->]].
  { destruct y as [s|z|ids]; simpl; [right|destruct (lm !! z)|right]; eauto. }
  - rewrite ret_bind. destruct IH as [[ts ->]|[e ->]]; [left|right]; eauto.
  - right. eauto.
Qed.

Lemma always_to_tokens tok lm x :
  always (to_tokens tok lm x) (tokenize_outcome tok).
Proof.
  unfold to_tokens, getitem.
  destruct (x !! "label") as [labels|]; [|intros lib hist; left; simpl; eauto].
  rewrite ret_bind.
  destruct (mapM_dict_getitem lm labels) as [[ts ->]|[e ->]];
    [|intros lib hist; left; simpl; eauto].
  rewrite ret_bind.
  destruct (x !! "text") as [text|]; [|intros lib hist; left; simpl; eauto].
  rewrite ret_bind. intros lib hist. right. exists text, ts. simpl.
  destruct (lib _ _ _) as [enc|e]; simpl; eauto.
Qed.

Lemma first_unknown_label labels z :
  z ∈ labels → imdb_label_lookup !! z = None →
  ∃ known z' rest, labels = known ++ z' :: rest ∧
    Forall (λ y, is_Some (imdb_label_lookup !! y)) known ∧
    imdb_label_lookup !! z' = None ∧
    mapM (dict_getitem imdb_label_lookup) (CInt <$> labels)
      = Raise (KeyError (CInt z')).
Proof.
  intros Hin Hz. induction labels as [|y labels IH]; [by apply elem_of_nil in Hin|].
  destruct (imdb_label_lookup !! y) as [s|] eqn:Hy.
  - apply elem_of_cons in Hin as [->|Hin]; [congruence|].
    destruct (IH Hin) as (known & z' & rest & -> & Hk & Hz' & Heq).
    exists (y :: known), z', rest. split; [done|]. split; [by constructor|].
    split; [done|]. rewrite fmap_cons, mapM_cons, Heq. simpl. by rewrite Hy.
  - exists [], y, labels. split; [done|]. split; [done|]. split; [done|].
    rewrite fmap_cons, mapM_cons. simpl. by rewrite Hy.
Qed.

(** C9.  The label lookup table has exactly the keys -1, 0 and 1.  On a batch
    whose label column holds an integer outside them, the closure raises a
    [KeyError] for such a label; it does so before any call to the tokenizer
    (the log is empty) and returns no batch encoding. *)
Theorem to_tokens_rejects_unknown_label tokenizer (x : batch) labels z lib hist :
  x !! "label" = Some (CInt <$> labels) →
  z ∈ labels →
  z ≠ -1 ∧ z ≠ 0 ∧ z ≠ 1 →
  (∀ k, is_Some (imdb_label_lookup !! k) ↔ k = -1 ∨ k = 0 ∨ k = 1) ∧
  ∃ z', z' ∈ labels ∧ z' ≠ -1 ∧ z' ≠ 0 ∧ z' ≠ 1 ∧
    run lib (to_tokens tokenizer imdb_label_lookup x) hist
      = ([], Failed (KeyError (CInt z'))).
Proof.
  intros Hl Hin (Hz1 & Hz2 & Hz3). split.
  - intros k. split.
    + intros [s Hs]. apply imdb_label_lookup_Some in Hs.
      destruct Hs as [ [-> _] | [ [-> _] | [-> _] ] ]; auto.
    + intros [-> | [-> | ->] ]; by eexists.
  - assert (imdb_label_lookup !! z = None) as Hz by by apply imdb_label_lookup_None.
    destruct (first_unknown_label labels z Hin Hz)
      as (known & z' & rest & -> & _ & Hz' & Heq).
    apply imdb_label_lookup_None in Hz' as (? & ? & ?).
    exists z'. split; [apply elem_of_app; right; apply list_elem_of_here|].
    do 3 (split; [done|]).
    unfold to_tokens, getitem. by rewrite Hl, ret_bind, Heq.
Qed.

Lemma lookup_remove_columns cols (t : table) c :
  remove_columns cols t !! c = if decide (c ∈ cols) then None else t !! c.
Proof.
  unfold remove_columns. induction cols as [|c' cols IH]; cbn [foldr].
  - destruct (decide (c ∈ [])); [set_solver|done].
  - rewrite lookup_delete, IH.
    destruct (decide (c' = c)) as [->|Hne].
    + destruct (decide (c ∈ c :: cols)) as [|Hn]; [done|].
      destruct Hn. apply list_elem_of_here.
    + destruct (decide (c ∈ cols)) as [Hc|Hc];
        destruct (decide (c ∈ c' :: cols)) as [Hc'|Hc']; try done.
      * destruct Hc'. by apply list_elem_of_further.
      * apply elem_of_cons in Hc' as [->|?]; done.
Qed.

Lemma encodings_app l1 l2 : encodings (l1 ++ l2) = encodings l1 ++ encodings l2.
Proof. apply omap_app. Qed.

Lemma always_map_batches tok lm rm bs :
  always (map_batches (to_tokens tok lm) rm bs) (λ l o,
    Forall (map_call tok) l ∧ ∀ t', o = Done t' → columns_from rm bs l t').
Proof.
  induction bs as [|b bs IH]; simpl.
  - apply always_ret. split; [done|]. intros t' [= <-] c [? Hc]. by rewrite lookup_empty in Hc.
  - apply always_bind. eapply always_mono; [apply always_to_tokens|].
    intros l o [[-> [e ->]]|(text & targets & r & -> & ->)]; [split; [done|]; done|].
    destruct r as [enc|e]; [|split; [|done]; repeat constructor; by do 3 eexists].
    apply always_bind. eapply always_mono; [apply IH|].
    intros l' [rest|e] [Hl' Hrest].
    + apply always_ret. split.
      { constructor; [by do 3 eexists|]. by rewrite app_nil_r. }
      intros t' [= <-] c Hc.
      unfold concat_tables in Hc. rewrite lookup_union_with in Hc.
      destruct ((enc ∪ remove_columns rm b) !! c) as [col|] eqn:E.
      * apply lookup_union_Some_raw in E as [E|[_ E]].
        -- right. exists enc. split; [|by eexists].
           simpl. unfold encodings. simpl. by left.
        -- left. exists b. rewrite lookup_remove_columns in E.
           destruct (decide (c ∈ rm)); [done|]. split; [by left|]. split; [by eexists|done].
      * assert (is_Some (rest !! c)) as Hr by (destruct (rest !! c); [by eexists|by destruct Hc]).
        destruct (Hrest rest eq_refl c Hr) as [(b' & ? & ? & ?)|(enc' & ? & ?)].
        -- left. exists b'. split; [by right|done].
        -- right. exists enc'. split; [|done]. rewrite app_nil_r.
           simpl. unfold encodings in *. simpl. by right.
    + split; [|done]. constructor; [by do 3 eexists|done].
Qed.

(** ** Mapping the closure over a dataset *)

Lemma batches_lookup size (t b : table) c :
  b ∈ batches size t → is_Some (b !! c) → is_Some (t !! c).
Proof.
  unfold batches. intros (i & -> & _)%list_elem_of_fmap. unfold slice.
  rewrite lookup_fmap. by intros ?%fmap_is_Some.
Qed.

Lemma always_Dataset_map tok lm rm (t : table) :
  always (Dataset_map (to_tokens tok lm) rm t) (λ l o,
    Forall (map_call tok) l ∧
    ∀ t' : table, o = Done t' →
      has_columns rm t = true ∧
      ∀ c, is_Some (t' !! c) →
        (is_Some (t !! c) ∧ c ∉ rm) ∨
        (∃ enc : batch, enc ∈ encodings l ∧ is_Some (enc !! c))).
Proof.
  unfold Dataset_map. destruct (has_columns rm t); simpl.
  2: { apply always_raise. by split. }
  destruct (num_rows t =? 0)%nat.
  - apply always_ret. split; [done|]. intros t' [= <-]. split; [done|].
    intros c Hc. left. rewrite lookup_remove_columns in Hc.
    by destruct (decide (c ∈ rm)); [destruct Hc|].
  - eapply always_mono; [apply always_map_batches|].
    intros l o [Hl Hcols]. split; [done|]. intros t' ->. split; [done|].
    intros c Hc. destruct (Hcols t' eq_refl c Hc) as [(b & Hb & Hbc & Hrm)|?];
      [left|by right].
    split; [|done]. by eapply batches_lookup.
Qed.

Lemma tokenized_from_mono rm d l l1 l2 d' :
  tokenized_from rm d l d' → tokenized_from rm d (l1 ++ l ++ l2) d'.
Proof.
  intros H k t' Hk. destruct (H k t' Hk) as (t & ? & ? & Hc).
  exists t. do 2 (split; [done|]). intros c Hsome.
  destruct (Hc c Hsome) as [?|(enc & ? & ?)]; [by left|right].
  exists enc. split; [|done]. rewrite !encodings_app, !elem_of_app. auto.
Qed.

Lemma always_map_splits tok lm rm (d : dataset_dict) :
  always (map_splits (to_tokens tok lm) rm d) (λ l o,
    Forall (map_call tok) l ∧ ∀ d', o = Done d' → tokenized_from rm d l d').
Proof.
  induction d as [|[k t] d IH]; simpl.
  - apply always_ret. split; [done|]. by intros d' [= <-] k t' Hk.
  - apply always_bind. eapply always_mono; [apply always_Dataset_map|].
    intros l [t'|e] [Hl Ht]; [|done].
    apply always_bind. eapply always_mono; [apply IH|].
    intros l' [rest|e] [Hl' Hrest].
    + apply always_ret. rewrite app_nil_r. split; [by apply Forall_app|].
      intros d' [= <-] k0 t0 Hk0. simpl in *.
      destruct (Ht t' eq_refl) as [Hhas Hcols].
      destruct (String.eqb k0 k).
      * injection Hk0 as <-. exists t. do 2 (split; [done|]).
        intros c Hc. destruct (Hcols c Hc) as [?|(enc & ? & ?)]; [by left|right].
        exists enc. split; [|done]. rewrite encodings_app.
        apply elem_of_app. by left.
      * specialize (Hrest rest eq_refl).
        apply (tokenized_from_mono rm d l' l []) in Hrest.
        rewrite app_nil_r in Hrest. by apply Hrest.
    + split; [by apply Forall_app|done].
Qed.

Lemma always_DatasetDict_map tok lm rm (d : dataset_dict) :
  always (DatasetDict_map (to_tokens tok lm) rm d) (λ l o,
    ∃ r l', l = Called (DatasetDict_map_enter d true rm) r :: l' ∧
      Forall (map_call tok) l' ∧
      match r with
      | Ok _ => ∀ d', o = Done d' → tokenized_from rm d l' d'
      | Err e => l' = [] ∧ o = Failed e
      end).
Proof.
  unfold DatasetDict_map. apply always_do_bind.
  - intros e. by exists (Err e), [].
  - intros u. eapply always_mono; [apply always_map_splits|].
    intros l o [Hl Hd]. by exists (Ok u), l.
Qed.

Lemma always_DatasetDict_map_bind {R} tok lm rm (d : dataset_dict)
    (k : dataset_dict → Prog R) Q :
  (∀ e, Q [Called (DatasetDict_map_enter d true rm) (Err e)] (Failed e)) →
  (∀ u l e, Forall (map_call tok) l →
     Q (Called (DatasetDict_map_enter d true rm) (Ok u) :: l) (Failed e)) →
  (∀ u l d', Forall (map_call tok) l → tokenized_from rm d l d' →
     always (k d')
       (λ l' o, Q (Called (DatasetDict_map_enter d true rm) (Ok u) :: l ++ l') o)) →
  always (DatasetDict_map (to_tokens tok lm) rm d ≫= k) Q.
Proof.
  intros Henter Hfail Hok. apply always_bind.
  eapply always_mono; [apply always_DatasetDict_map|].
  intros l o (r & l' & -> & Hl & Hr). destruct r as [u|e].
  - destruct o as [d'|e]; [|by apply Hfail].
    eapply always_mono; [by apply (Hok u l' d'); [|apply Hr]|]. done.
  - destruct Hr as [-> ->]. apply Henter.
Qed.

Lemma omap_map_calls {A} (f : entry → option A) tok l :
  (∀ e, map_call tok e → f e = None) → Forall (map_call tok) l → omap f l = [].
Proof.
  intros Hf. induction 1 as [|e l He _ IH]; [done|].
  simpl. by rewrite (Hf e He).
Qed.

(** ** Stepping through the notebook *)

Ltac nb_norm := cbv beta zeta.

Ltac nb_step fail_tac :=
  nb_norm;
  lazymatch goal with
  | |- always (do _ ≫= _) _ =>
      apply always_do_bind; [intros ?; nb_norm; fail_tac | intros ?]
  | |- always (getitem _ _ ≫= _) _ =>
      apply always_getitem_bind; [intros ?; nb_norm; fail_tac | intros ? ?]
  | |- always (split_getitem _ _ ≫= _) _ =>
      apply always_split_getitem_bind;
      [intros ?; nb_norm; fail_tac | intros ? ?]
  | |- always (Assert _ _ _) _ =>
      apply always_assert; [intros ?; nb_norm; fail_tac | intros ?]
  | |- always (SetEnv _ _ _) _ => apply always_setenv
  | |- always (DatasetDict_map (to_tokens _ _) _ _ ≫= _) _ =>
      apply always_DatasetDict_map_bind;
      [intros ?; nb_norm; fail_tac
      |intros ? ? ? ?; nb_norm; fail_tac
      |intros ? ? ? ? ?]
  | |- always (do _) _ =>
      apply always_do; [intros ?; nb_norm; fail_tac | intros []; nb_norm]
  end.

(** Projections of a log that is partly symbolic. *)
Ltac omap_simpl :=
  repeat (cbn [omap list_omap app encoding_of]; rewrite ?omap_app);
  repeat match goal with
  | H : Forall (map_call ?tok) ?l |- context [list_omap _ _ ?f ?l] =>
      rewrite (omap_map_calls f tok l ltac:(by intros ? (?&?&?&->)) H)
  | H : Forall (map_call ?tok) ?l |- context [omap ?f ?l] =>
      rewrite (omap_map_calls f tok l ltac:(by intros ? (?&?&?&->)) H)
  end;
  cbn [omap list_omap app encoding_of].

Ltac sublist_search :=
  lazymatch goal with
  | |- [] `sublist_of` _ => apply sublist_nil_l
  | |- _ `sublist_of` (_ ++ _) => apply sublist_inserts_l; sublist_search
  | |- _ `sublist_of` (_ :: _) =>
      (apply sublist_skip; sublist_search) || (apply sublist_cons; sublist_search)
  end.

Ltac elem_tac :=
  repeat first [apply list_elem_of_here | apply list_elem_of_further
               | apply elem_of_app; right].

Ltac unit_vars := repeat match goal with u : unit |- _ => destruct u end.

Lemma run_do_bind lib {X R} (c : call X) (k : X → Prog R) hist :
  run lib (do c ≫= k) hist =
  match lib _ hist c with
  | Ok x => (Called c (Ok x) :: (run lib (k x) (Called c (Ok x) :: hist)).1,
             (run lib (k x) (Called c (Ok x) :: hist)).2)
  | Err e => ([Called c (Err e)], Failed e)
  end.
Proof. reflexivity. Qed.

(** ** The GPU check *)

Lemma notebook_asserts :
  always notebook (λ l o,
    match l with
    | Called (spark_conf_get key) (Ok v) :: l' =>
        key = version_key ∧
        asserts l = [(str_contains "gpu" v, gpu_message)] ∧
        (str_contains "gpu" v = false →
           l' = [Asserted false gpu_message] ∧
           o = Failed (AssertionError gpu_message)) ∧
        (str_contains "gpu" v = true →
           ∃ r rest, l' = Asserted true gpu_message
                          :: Called (magic install_cuda_libraries) r :: rest)
    | _ => asserts l = []
    end).
Proof.
  unfold notebook.
  nb_step ltac:(done).
  nb_step ltac:(split; [done|]; unfold asserts; cbn;
                match goal with H : _ = false |- _ => rewrite H end;
                split; [done|]; split; [done|by intros [=]]).
  repeat nb_step ltac:(
    split; [done|]; unfold asserts; omap_simpl;
    match goal with H : _ = true |- _ => rewrite H end;
    split; [done|]; split; [by intros [=]|intros _; by do 2 eexists]).
  split; [done|]. unfold asserts; omap_simpl. rewrite H.
  split; [done|]; split; [by intros [=]|intros _; by do 2 eexists].
Qed.
(** C2.  The notebook has exactly one assertion.  It comes right after the
    Spark runtime version is read and before anything else: when the version
    string does not contain "gpu" the run stops there with the message, and
    when it does the run goes on to the next cell. *)
Theorem gpu_runtime_assertion (lib : library) (v : string) :
  lib _ [] (spark_conf_get version_key) = Ok v →
  let log := (run lib notebook []).1 in
  asserts log = [(str_contains "gpu" v, gpu_message)] ∧
  (str_contains "gpu" v = false →
     run lib notebook [] =
       ([Called (spark_conf_get version_key) (Ok v); Asserted false gpu_message],
        Failed (AssertionError gpu_message))) ∧
  (str_contains "gpu" v = true →
     ∃ r rest,
       log = Called (spark_conf_get version_key) (Ok v)
             :: Asserted true gpu_message
             :: Called (magic install_cuda_libraries) r :: rest).
Proof.
  intros Hv log.
  assert (∃ l', log = Called (spark_conf_get version_key) (Ok v) :: l')
    as [l' Hlog].
  { unfold log, notebook. rewrite run_do_bind. fold version_key. rewrite Hv. eauto. }
  pose proof (notebook_asserts lib []) as HQ. fold log in HQ.
  rewrite Hlog in HQ |- *. destruct HQ as (_ & Ha & Hf & Ht).
  split; [done|]. split.
  - intros Hno. destruct (Hf Hno) as [-> Ho].
    rewrite (surjective_pairing (run lib notebook [])). fold log. by rewrite Hlog, Ho.
  - intros Hyes. destruct (Ht Hyes) as (r & rest & ->). eauto.
Qed.

(** ** The environment variables *)

Lemma notebook_env_writes :
  always notebook (λ l o,
    (env_writes l = [] ∨ env_writes l = topology) ∧
    (o = Done tt → env_writes l = topology)).
Proof.
  unfold notebook.
  repeat nb_step ltac:(split; [unfold env_writes; omap_simpl; auto | done]).
  split; [right|intros _]; unfold env_writes; by omap_simpl.
Qed.
(** C3.  The only environment variables the notebook writes are
    MASTER_ADDR=localhost, MASTER_PORT=9994, RANK=0, LOCAL_RANK=0 and
    WORLD_SIZE=1, in this order, and a run that completes has written all
    five: a single node, world size 1 and both ranks 0; every other variable
    keeps its value. *)
Theorem single_node_topology (lib : library) (environ : gmap string string) :
  let log := (run lib notebook []).1 in
  (env_writes log = [] ∨ env_writes log = topology) ∧
  ((run lib notebook []).2 = Done tt → env_writes log = topology) ∧
  let env := environ_after topology environ in
  env !! "MASTER_ADDR" = Some "localhost" ∧
  env !! "MASTER_PORT" = Some "9994" ∧
  env !! "RANK" = Some "0" ∧
  env !! "LOCAL_RANK" = Some "0" ∧
  env !! "WORLD_SIZE" = Some "1" ∧
  ∀ k, k ∉ ["MASTER_ADDR"; "MASTER_PORT"; "RANK"; "LOCAL_RANK"; "WORLD_SIZE"] →
       env !! k = environ !! k.
Proof.
  intros log. split; [apply notebook_env_writes|].
  split; [apply notebook_env_writes|].
  unfold environ_after, topology. cbn [foldl fst snd].
  split; [by rewrite !lookup_insert_ne, lookup_insert_eq by done|].
  split; [by rewrite !lookup_insert_ne, lookup_insert_eq by done|].
  split; [by rewrite !lookup_insert_ne, lookup_insert_eq by done|].
  split; [by rewrite !lookup_insert_ne, lookup_insert_eq by done|].
  split; [by rewrite lookup_insert_eq|].
  intros k Hk. rewrite !lookup_insert_ne; [done|..]; intros <-; apply Hk;
    repeat first [apply list_elem_of_here | apply list_elem_of_further].
Qed.


(** ** The DeepSpeed configuration *)

Lemma notebook_deepspeed_configs :
  always notebook (λ l o,
    (deepspeed_configs l = [] ∨ deepspeed_configs l = [zero_config]) ∧
    (o = Done tt → deepspeed_configs l = [zero_config])).
Proof.
  unfold notebook.
  repeat nb_step ltac:(split; [unfold deepspeed_configs; omap_simpl; auto | done]).
  split; [right|intros _]; unfold deepspeed_configs; by omap_simpl.
Qed.
(** C4.  The configuration dictionary selects ZeRO stage 2, optimizer offload
    to "cpu" with pinned memory, allgather and reduce bucket sizes 5e8, an
    AdamW optimizer whose lr, betas, eps and weight_decay are "auto", and a
    train_batch_size "auto"; it is the only DeepSpeed configuration the
    notebook hands to [TrainingArguments]. *)
Theorem zero_config_selection (lib : library) :
  py_path ["zero_optimization"; "stage"] zero_config = Some (PyInt 2) ∧
  py_path ["zero_optimization"; "offload_optimizer"; "device"] zero_config
    = Some (PyStr "cpu") ∧
  py_path ["zero_optimization"; "offload_optimizer"; "pin_memory"] zero_config
    = Some (PyBool true) ∧
  py_path ["zero_optimization"; "allgather_bucket_size"] zero_config
    = Some (PyFloat 5 8) ∧
  py_path ["zero_optimization"; "reduce_bucket_size"] zero_config
    = Some (PyFloat 5 8) ∧
  float_value (PyFloat 5 8) = Some 500000000 ∧
  py_path ["optimizer"; "type"] zero_config = Some (PyStr "AdamW") ∧
  py_path ["optimizer"; "params"; "lr"] zero_config = Some (PyStr "auto") ∧
  py_path ["optimizer"; "params"; "betas"] zero_config = Some (PyStr "auto") ∧
  py_path ["optimizer"; "params"; "eps"] zero_config = Some (PyStr "auto") ∧
  py_path ["optimizer"; "params"; "weight_decay"] zero_config
    = Some (PyStr "auto") ∧
  py_path ["train_batch_size"] zero_config = Some (PyStr "auto") ∧
  let log := (run lib notebook []).1 in
  (deepspeed_configs log = [] ∨ deepspeed_configs log = [zero_config]) ∧
  ((run lib notebook []).2 = Done tt → deepspeed_configs log = [zero_config]).
Proof.
  do 12 (split; [reflexivity|]). intros log. apply notebook_deepspeed_configs.
Qed.

(** ** Paths *)

Lemma prefix_append s t : String.prefix s (s +:+ t) = true.
Proof.
  induction s as [|a s IH]; [change ("" +:+ t) with t; by destruct t|].
  change (String a s +:+ t) with (String a (s +:+ t)). cbn [String.prefix].
  by destruct (Ascii.ascii_dec a a).
Qed.

Lemma os_path_join_relative root n :
  str_startswith "/" n = false → str_startswith root (os_path_join root n) = true.
Proof.
  intros Hn. unfold os_path_join. rewrite Hn. unfold str_startswith.
  destruct (_ || _); apply prefix_append.
Qed.

Lemma last_cons_cons {A} (x y : A) l : last (x :: y :: l) = last (y :: l).
Proof. done. Qed.

Lemma last_app_cons {A} (l : list A) x k : last (l ++ x :: k) = last (x :: k).
Proof. induction l as [|y [|z l] IH]; [done|done|]. exact IH. Qed.

Lemma last_cons_app_cons {A} (x : A) l y k :
  last (x :: l ++ y :: k) = last (y :: k).
Proof. apply (last_app_cons (x :: l)). Qed.

Lemma notebook_checkpoint_layout :
  always notebook (λ l o, o = Done tt → checkpoint_layout l).
Proof.
  unfold notebook.
  repeat nb_step ltac:(done).
  intros _. unit_vars. unfold checkpoint_layout, trains_and_persists, final_path.
  do 2 eexists. cbv zeta.
  split; [elem_tac|].
  split; [unfold tmp_roots; by omap_simpl|].
  split; [unfold output_dirs; by omap_simpl|].
  split; [by apply os_path_join_relative|].
  split; [by apply os_path_join_relative|].
  split; [do 12 eexists; sublist_search|].
  split; [do 12 eexists; sublist_search|].
  split; [unfold persisted; by omap_simpl|].
  split; [unfold cleaned; by omap_simpl|].
  repeat first [rewrite last_cons_cons | rewrite last_app_cons
               | rewrite last_cons_app_cons]. done.
Qed.

(** C5.  In a run that completes, both training runs write their checkpoints
    under [os.path.join] of the temporary directory and the checkpoint name,
    each trained model is then saved to
    [{working_dir}/llm04_fine_tuning/{checkpoint_name}], and the only
    clean-up, the last call of the notebook, is that of the temporary
    directory. *)
Theorem checkpoints_local_then_persisted (lib : library) :
  (run lib notebook []).2 = Done tt →
  checkpoint_layout (run lib notebook []).1.
Proof. apply notebook_checkpoint_layout. Qed.

(** ** The order of the steps *)

Lemma stages_from_map_calls tok l rest :
  Forall (map_call tok) l →
  stages_from (Some MapTokenize) (l ++ rest) = stages_from (Some MapTokenize) rest.
Proof.
  induction 1 as [|e l (text & targets & r & ->) _ IH]; [done|]. simpl. exact IH.
Qed.

Lemma stages_from_map_calls_nil tok l :
  Forall (map_call tok) l → stages_from (Some MapTokenize) l = [].
Proof.
  intros H. rewrite <- (app_nil_r l). by rewrite (stages_from_map_calls tok).
Qed.

Ltac stages_simpl :=
  unfold stages;
  repeat (simpl stages_from;
          repeat match goal with
          | H : Forall (map_call ?tok) ?l |- context [stages_from _ (?l ++ ?rest)] =>
              rewrite (stages_from_map_calls tok l rest H)
          | H : Forall (map_call ?tok) ?l |- context [stages_from _ ?l] =>
              rewrite (stages_from_map_calls_nil tok l H)
          end).

Lemma notebook_stages :
  always notebook (λ l o,
    stages l `prefix_of` first_pipeline ++ deepspeed_pipeline ∧
    (o = Done tt → stages l = first_pipeline ++ deepspeed_pipeline)).
Proof.
  unfold notebook.
  repeat nb_step ltac:(split; [stages_simpl; by eexists | done]).
  split; [|intros _]; stages_simpl; [by exists []|done].
Qed.

Lemma monitor_run_map_calls tok s l rest :
  Forall (map_call tok) l → monitor_run s (l ++ rest) = monitor_run s rest.
Proof.
  induction 1 as [|e l (text & targets & r & ->) _ IH]; [done|]. simpl. exact IH.
Qed.

Lemma monitor_run_map_calls_nil tok s l :
  Forall (map_call tok) l → monitor_run s l = Some s.
Proof.
  intros H. rewrite <- (app_nil_r l). by rewrite (monitor_run_map_calls tok).
Qed.

Ltac monitor_simpl :=
  unfold guarded, monitor_init;
  repeat first
    [ progress cbn [monitor_run monitor_step trained saved reloaded]
    | match goal with
      | H : Forall (map_call ?tok) ?l |- context [monitor_run ?s (?l ++ ?rest)] =>
          rewrite (monitor_run_map_calls tok s l rest H)
      | H : Forall (map_call ?tok) ?l |- context [monitor_run ?s ?l] =>
          rewrite (monitor_run_map_calls_nil tok s l H)
      end
    | rewrite bool_decide_eq_true_2 by elem_tac
    | rewrite bool_decide_eq_false_2 by apply not_elem_of_nil
    | case_bool_decide ].

Lemma notebook_guarded : always notebook (λ l o, guarded l).
Proof.
  unfold notebook.
  repeat nb_step ltac:(monitor_simpl; by eexists).
  monitor_simpl; by eexists.
Qed.

Lemma sublist_snoc {A} (l k : list A) x :
  l `sublist_of` k → l ++ [x] `sublist_of` k ++ [x].
Proof. intros H. by apply sublist_app. Qed.

Lemma sublist_snoc_r {A} (l k : list A) x : l `sublist_of` k → l `sublist_of` k ++ [x].
Proof. intros H. by apply sublist_inserts_r. Qed.

Lemma monitor_inv_weaken s log e : monitor_inv s log → monitor_inv s (log ++ [e]).
Proof.
  intros (Ht & Hs & Hr). split; [|split].
  - intros t Hin. by apply sublist_snoc_r, Ht.
  - intros d Hin. destruct (Hs d Hin) as [t ?]. exists t. by apply sublist_snoc_r.
  - intros m Hin. destruct (Hr m Hin) as (t & d & c & ?). exists t, d, c.
    by apply sublist_snoc_r.
Qed.

Lemma monitor_step_inv s e s' log :
  monitor_inv s log → monitor_step s e = Some s' → monitor_inv s' (log ++ [e]).
Proof.
  intros Hinv Hstep. pose proof (monitor_inv_weaken s log e Hinv) as Hw.
  destruct e as [X c r| |]; [|by injection Hstep as <-..].
  destruct c; try (by injection Hstep as <-); simpl in Hstep.
  - (* from_pretrained *)
    destruct r as [m|]; [|by injection Hstep as <-].
    case_bool_decide as Hd; injection Hstep as <-; [|done].
    destruct Hw as (Ht & Hs & Hr). split; [done|]. split; [done|]. simpl.
    intros m' [->|Hin]%elem_of_cons; [|by apply Hr].
    destruct Hinv as (_ & Hs' & _). destruct (Hs' _ Hd) as [t Hsub].
    exists t, path, cache_dir. by apply (sublist_snoc [_; _]).
  - (* train *)
    destruct r as [[]|]; [|by injection Hstep as <-]. injection Hstep as <-.
    destruct Hw as (Ht & Hs & Hr). split; [|done]. simpl.
    intros t [->|Hin]%elem_of_cons; [|by apply Ht].
    apply (sublist_inserts_l log [_] [_]). done.
  - (* save_model *)
    destruct output_dir as [dir|]; [|by injection Hstep as <-].
    destruct r as [[]|]; [|by injection Hstep as <-].
    case_bool_decide as Hd; injection Hstep as <-; [|done].
    destruct Hw as (Ht & Hs & Hr). split; [done|]. split; [|done]. simpl.
    intros d [->|Hin]%elem_of_cons; [|by apply Hs].
    destruct Hinv as (Ht' & _ & _). exists trainer.
    by apply (sublist_snoc [_]), Ht'.
  - (* generate *)
    case_bool_decide; [by injection Hstep as <-|done].
Qed.

Lemma monitor_run_sound s log pre :
  monitor_inv s pre → is_Some (monitor_run s log) →
  ∀ before m ids mask r after,
    log = before ++ Called (Model_generate m ids mask) r :: after →
    trained_saved_reloaded m (pre ++ before).
Proof.
  revert s pre. induction log as [|e log IH]; intros s pre Hinv Hrun before m ids mask r after Heq.
  - by destruct before.
  - simpl in Hrun. destruct (monitor_step s e) as [s'|] eqn:Hstep; [|by destruct Hrun].
    destruct before as [|e' before]; simpl in Heq; injection Heq as -> ->.
    + simpl in Hstep. case_bool_decide as Hm; [|done]. injection Hstep as <-.
      rewrite app_nil_r. by apply Hinv.
    + pose proof (monitor_step_inv _ _ _ _ Hinv Hstep) as Hinv'.
      specialize (IH s' (pre ++ [e']) Hinv' Hrun before m ids mask r after eq_refl).
      by rewrite <- app_assoc in IH.
Qed.

Lemma guarded_sound log :
  guarded log →
  ∀ before m ids mask r after,
    log = before ++ Called (Model_generate m ids mask) r :: after →
    trained_saved_reloaded m before.
Proof.
  intros Hg. apply (monitor_run_sound monitor_init log []); [|done].
  split; [|split]; by intros ? ?%elem_of_nil.
Qed.

(** C6.  The steps of every run follow, as far as the run gets, the order
    load dataset, load tokenizer, map/tokenize, training configuration,
    model, trainer, train, save, reload, predict, display of the first
    pipeline, then those of the DeepSpeed pipeline; a run that completes goes
    through all of them.  In every run, whenever [generate] is called, the
    model it is called on was loaded from a path to which a trainer had been
    saved after its training. *)
Theorem pipeline_order (lib : library) :
  let log := (run lib notebook []).1 in
  stages log `prefix_of` first_pipeline ++ deepspeed_pipeline ∧
  ((run lib notebook []).2 = Done tt →
     stages log = first_pipeline ++ deepspeed_pipeline) ∧
  ∀ before m ids mask r after,
    log = before ++ Called (Model_generate m ids mask) r :: after →
    trained_saved_reloaded m before.
Proof.
  intros log. split; [apply notebook_stages|]. split; [apply notebook_stages|].
  apply guarded_sound, notebook_guarded.
Qed.

(** ** Prediction *)

Lemma notebook_classifies :
  always notebook (λ l o, o = Done tt →
    ∃ DA, Called (run_notebook "../Includes/Classroom-Setup") (Ok DA) ∈ l ∧
      classifies_by_generation (final_path DA "test-trainer") reviews l ∧
      classifies_by_generation (final_path DA "test-trainer-deepspeed") review l).
Proof.
  unfold notebook.
  repeat nb_step ltac:(done).
  intros _. unit_vars. unfold classifies_by_generation, final_path.
  eexists. split; [elem_tac|].
  split; do 11 eexists; (split; [sublist_search | split; eassumption]).
Qed.

(** C7.  In a run that completes, in both pipelines the trained model is
    saved to the persistent path and loaded back from it, [generate] is
    called on the input ids and attention mask of the tokenized reviews, the
    output is decoded with special tokens skipped, and the reviews are
    displayed zipped with the decoded strings under the columns "review" and
    "classification". *)
Theorem classification_by_generation (lib : library) :
  (run lib notebook []).2 = Done tt →
  let log := (run lib notebook []).1 in
  ∃ DA, Called (run_notebook "../Includes/Classroom-Setup") (Ok DA) ∈ log ∧
    classifies_by_generation (final_path DA "test-trainer") reviews log ∧
    classifies_by_generation (final_path DA "test-trainer-deepspeed") review log.
Proof. apply notebook_classifies. Qed.

(** ** No exception handling *)

Lemma last_cons_Some {A} (x y : A) l : last l = Some y → last (x :: l) = Some y.
Proof. destruct l; [done|]. done. Qed.

Lemma no_try_propagates lib {R} (p : Prog R) hist :
  no_try p →
  ∀ en x, en ∈ (run lib p hist).1 → raised_by_library en = Some x →
    (run lib p hist).2 = Failed x ∧ last (run lib p hist).1 = Some en.
Proof.
  revert hist.
  induction p as [R r|R e|R cond msg p IH|R key v p IH|R X c k IH
                 |R X body IHb except IHe k IH]; intros hist Hno en x; simpl.
  - by intros ?%elem_of_nil.
  - by intros ?%elem_of_nil.
  - destruct cond; simpl.
    + intros [->|Hin]%elem_of_cons Hen; [done|].
      destruct (IH _ Hno en x Hin Hen) as [? ?]. split; [done|by apply last_cons_Some].
    + by intros ->%list_elem_of_singleton.
  - intros [->|Hin]%elem_of_cons Hen; [done|].
    destruct (IH _ Hno en x Hin Hen) as [? ?]. split; [done|by apply last_cons_Some].
  - destruct (lib X hist c) as [a|e]; simpl.
    + intros [->|Hin]%elem_of_cons Hen; [done|].
      destruct (IH a _ (Hno a) en x Hin Hen) as [? ?].
      split; [done|by apply last_cons_Some].
    + intros ->%list_elem_of_singleton [= ->]. done.
  - done.
Qed.

Lemma no_try_mbind {A B} (p : Prog A) (f : A → Prog B) :
  no_try p → (∀ x, no_try (f x)) → no_try (p ≫= f).
Proof. apply no_try_bind. Qed.

Lemma no_try_do {X} (c : call X) : no_try (do c).
Proof. by intros x. Qed.

Lemma no_try_getitem {V} (d : gmap string V) k : no_try (getitem d k).
Proof. unfold getitem. by destruct (d !! k). Qed.

Lemma no_try_split_getitem (d : dataset_dict) k : no_try (split_getitem d k).
Proof. unfold split_getitem. by destruct (assoc k d). Qed.

Lemma no_try_to_tokens tok lm x : no_try (to_tokens tok lm x).
Proof.
  unfold to_tokens. apply no_try_mbind; [apply no_try_getitem|]. intros labels.
  apply no_try_mbind.
  { by destruct (mapM_dict_getitem lm labels) as [[ts ->]|[e ->]]. }
  intros targets. apply no_try_mbind; [apply no_try_getitem|]. intros text.
  apply no_try_mbind; [apply no_try_do|done].
Qed.

Lemma no_try_map_batches f rm bs :
  (∀ b, no_try (f b)) → no_try (map_batches f rm bs).
Proof.
  intros Hf. induction bs as [|b bs IH]; [done|]. cbn [map_batches].
  apply no_try_mbind; [done|]. intros ?. by apply no_try_mbind.
Qed.

Lemma no_try_DatasetDict_map f rm d :
  (∀ b, no_try (f b)) → no_try (DatasetDict_map f rm d).
Proof.
  intros Hf. unfold DatasetDict_map. apply no_try_mbind; [apply no_try_do|].
  intros _. induction d as [|[k t] d IH]; [done|]. cbn [map_splits].
  apply no_try_mbind.
  { unfold Dataset_map. destruct (negb _); [done|]. destruct (_ =? _)%nat; [done|].
    by apply no_try_map_batches. }
  intros ?. by apply no_try_mbind.
Qed.

Ltac no_try_step :=
  cbv beta zeta;
  lazymatch goal with
  | |- no_try (Assert _ _ _) => change (no_try (Assert ?c ?m ?k)) with (no_try k)
  | |- no_try (SetEnv _ _ _) => change (no_try (SetEnv ?a ?b ?k)) with (no_try k)
  | |- no_try (do _ ≫= _) => apply no_try_mbind; [apply no_try_do | intros ?]
  | |- no_try (getitem _ _ ≫= _) =>
      apply no_try_mbind; [apply no_try_getitem | intros ?]
  | |- no_try (split_getitem _ _ ≫= _) =>
      apply no_try_mbind; [apply no_try_split_getitem | intros ?]
  | |- no_try (DatasetDict_map _ _ _ ≫= _) =>
      apply no_try_mbind;
      [apply no_try_DatasetDict_map, no_try_to_tokens | intros ?]
  | |- no_try (do _) => apply no_try_do
  end.

Lemma notebook_no_try : no_try notebook.
Proof. unfold notebook. repeat no_try_step. Qed.

(** C8.  The notebook contains no [try]/[except]: whenever a library call
    raises, the run ends at that call, which is the last entry of the log,
    and the outcome is the very exception the library raised. *)
Theorem library_failures_propagate (lib : library) :
  no_try notebook ∧
  ∀ X (c : call X) e,
    Called c (Err e) ∈ (run lib notebook []).1 →
    (run lib notebook []).2 = Failed e ∧
    last (run lib notebook []).1 = Some (Called c (Err e)).
Proof.
  split; [apply notebook_no_try|]. intros X c e Hin.
  by apply (no_try_propagates lib notebook [] notebook_no_try (Called c (Err e)) e).
Qed.

(** ** The tokenized dataset *)

Lemma tokenized_column_encoded rm raw l d' k (t : table) c :
  tokenized_from rm raw l d' → assoc k d' = Some t →
  c ∈ rm ∨ raw_schema rm raw → column_encoded l t c.
Proof.
  intros Htok Hk Hc Hsome. destruct (Htok k t Hk) as (t0 & Hraw & _ & Hcols).
  destruct (Hcols c Hsome) as [[Hin Hrm]|?]; [|done].
  destruct Hc as [?|Hschema]; [done|]. destruct Hrm. by eapply Hschema.
Qed.

Ltac enc_tac :=
  repeat first [ assumption | apply list_elem_of_here
               | apply elem_of_app; left; assumption
               | apply elem_of_app; right | apply list_elem_of_further ].

Ltac tokenized_case Htok Hk :=
  let enc := fresh "enc" in let Henc := fresh "Henc" in let Hsome := fresh in
  match goal with
  | Hc : _ ∨ _, Hs : is_Some (_ !! ?c) |- _ =>
      destruct (tokenized_column_encoded _ _ _ _ _ _ c Htok Hk) as (enc & Henc & Hsome);
      [destruct Hc as [Hc|Hc]; [by left|right; apply Hc, list_elem_of_here]
      |exact Hs
      |exists enc; split; [unfold encodings in Henc; enc_tac|exact Hsome]]
  end.

Ltac tokenized_tac :=
  unfold trainer_datasets, encodings, loaded_datasets; omap_simpl;
  intros train eval t Hin Ht c Hc Hs;
  repeat (apply elem_of_cons in Hin as [[= -> ->]|Hin]);
  [..|by apply elem_of_nil in Hin];
  destruct Ht as [->| ->];
  match goal with
  | Htok : tokenized_from _ _ _ ?d, Hk : assoc _ ?d = Some ?t,
    Hs : is_Some (?t !! _) |- _ => tokenized_case Htok Hk
  end.

Lemma notebook_tokenized :
  always notebook (λ l o,
    tokenized_only ["text"; "label"] (trainer_datasets l) (encodings l)
      (loaded_datasets l)).
Proof.
  unfold notebook, tokenized_only.
  repeat nb_step ltac:(tokenized_tac).
  tokenized_tac.
Qed.

Lemma notebook_map_calls :
  always notebook (λ l o, o = Done tt →
    ∃ ds p1 p2,
      loaded_datasets l = [ds] ∧
      map_enters l = [(ds, true, ["text"; "label"]); (ds, true, ["text"; "label"])] ∧
      trainer_datasets l = [p1; p2]).
Proof.
  unfold notebook.
  repeat nb_step ltac:(done).
  intros _. do 3 eexists.
  unfold loaded_datasets, map_enters, trainer_datasets. omap_simpl. done.
Qed.

(** C10.  In every run, each column of a training or evaluation dataset
    handed to a trainer that is named "text" or "label" is a field of a batch
    encoding returned by the tokenizer, never the raw column; when the loaded
    dataset has no other columns than these two, every column of these
    datasets is a field of such an encoding.  A run that completes maps the
    closure twice over the loaded dataset, batched and with the columns
    "text" and "label" to remove, and builds its two trainers afterwards;
    and every split the mapping returns has its columns from the raw split,
    "text" and "label" excepted, or from the encodings. *)
Theorem tokenized_dataset_columns (lib : library) :
  let log := (run lib notebook []).1 in
  (∀ train eval (t : table),
     (train, eval) ∈ trainer_datasets log → t = train ∨ t = eval →
     ∀ c, c ∈ ["text"; "label"] ∨
          (∀ ds, ds ∈ loaded_datasets log → raw_schema ["text"; "label"] ds) →
       is_Some (t !! c) →
       ∃ enc : batch, enc ∈ encodings log ∧ is_Some (enc !! c)) ∧
  ((run lib notebook []).2 = Done tt →
     ∃ ds p1 p2,
       loaded_datasets log = [ds] ∧
       map_enters log
         = [(ds, true, ["text"; "label"]); (ds, true, ["text"; "label"])] ∧
       trainer_datasets log = [p1; p2]) ∧
  (∀ tokenizer (d d' : dataset_dict) hist,
     let r := run lib (DatasetDict_map (to_tokens tokenizer imdb_label_lookup)
                         ["text"; "label"] d) hist in
     r.2 = Done d' → tokenized_from ["text"; "label"] d r.1 d').
Proof.
  intros log. split; [apply notebook_tokenized|].
  split; [apply notebook_map_calls|].
  intros tok d d' hist r Hdone.
  destruct (always_DatasetDict_map tok imdb_label_lookup ["text"; "label"] d
              lib hist) as (res & l' & Hl & _ & Hres).
  fold r in Hl, Hres. rewrite Hl. destruct res as [u|e].
  - specialize (Hres d' Hdone).
    apply (tokenized_from_mono _ _ l' [Called (DatasetDict_map_enter d true
             ["text"; "label"]) (Ok u)] []) in Hres.
    by rewrite app_nil_r in Hres.
  - destruct Hres as [_ Hfail]. congruence.
Qed.

(** ** Concrete runs *)

Lemma to_tokens_translates_labels_witness :
  ∃ targets,
    Forall2 label_string [1; 0] targets ∧
    to_tokens (Obj 7) imdb_label_lookup
      {[ "text" := [CStr "a fine film"; CStr "dull"];
         "label" := [CInt 1; CInt 0] ]}
      = do (tokenizer_call (Obj 7) [CStr "a fine film"; CStr "dull"]
              (Some targets) "pt" true true) ∧
    run gpu_lib
      (to_tokens (Obj 7) imdb_label_lookup
         {[ "text" := [CStr "a fine film"; CStr "dull"];
            "label" := [CInt 1; CInt 0] ]}) []
      = match gpu_lib _ []
                (tokenizer_call (Obj 7) [CStr "a fine film"; CStr "dull"]
                   (Some targets) "pt" true true) with
        | Ok enc =>
            ([Called (tokenizer_call (Obj 7) [CStr "a fine film"; CStr "dull"]
                        (Some targets) "pt" true true) (Ok enc)], Done enc)
        | Err e =>
            ([Called (tokenizer_call (Obj 7) [CStr "a fine film"; CStr "dull"]
                        (Some targets) "pt" true true) (Err e)], Failed e)
        end.
Proof.
  apply (to_tokens_translates_labels (Obj 7) _ [1; 0]).
  - vm_compute. reflexivity.
  - vm_compute. reflexivity.
  - constructor; [lia|]. constructor; [lia|]. constructor.
Defined.

Lemma to_tokens_rejects_unknown_label_witness :
  ∃ z', z' ∈ [1; 2] ∧ z' ≠ -1 ∧ z' ≠ 0 ∧ z' ≠ 1 ∧
    run gpu_lib
      (to_tokens (Obj 7) imdb_label_lookup
         {[ "text" := [CStr "a fine film"; CStr "dull"];
            "label" := [CInt 1; CInt 2] ]}) []
      = ([], Failed (KeyError (CInt z'))).
Proof.
  apply (to_tokens_rejects_unknown_label (Obj 7) _ [1; 2] 2 gpu_lib []).
  - vm_compute. reflexivity.
  - apply list_elem_of_further, list_elem_of_here.
  - lia.
Defined.

Lemma gpu_runtime_assertion_witness :
  run cpu_lib notebook []
    = ([Called (spark_conf_get version_key) (Ok "13.3.x-cpu-ml-scala2.12");
        Asserted false gpu_message],
       Failed (AssertionError gpu_message)).
Proof.
  apply (gpu_runtime_assertion cpu_lib "13.3.x-cpu-ml-scala2.12").
  - reflexivity.
  - vm_compute. reflexivity.
Defined.

Lemma single_node_topology_witness :
  env_writes (run gpu_lib notebook []).1 = topology.
Proof.
  apply (single_node_topology gpu_lib ∅). vm_compute. reflexivity.
Defined.

Lemma zero_config_selection_witness :
  deepspeed_configs (run gpu_lib notebook []).1 = [zero_config].
Proof.
  apply (zero_config_selection gpu_lib). vm_compute. reflexivity.
Defined.

Lemma checkpoints_local_then_persisted_witness :
  checkpoint_layout (run gpu_lib notebook []).1.
Proof.
  apply (checkpoints_local_then_persisted gpu_lib). vm_compute. reflexivity.
Defined.

Lemma pipeline_order_witness :
  stages (run gpu_lib notebook []).1 = first_pipeline ++ deepspeed_pipeline.
Proof.
  apply (pipeline_order gpu_lib). vm_compute. reflexivity.
Defined.

Lemma classification_by_generation_witness :
  ∃ DA,
    Called (run_notebook "../Includes/Classroom-Setup") (Ok DA)
      ∈ (run gpu_lib notebook []).1 ∧
    classifies_by_generation (final_path DA "test-trainer") reviews
      (run gpu_lib notebook []).1 ∧
    classifies_by_generation (final_path DA "test-trainer-deepspeed") review
      (run gpu_lib notebook []).1.
Proof.
  apply (classification_by_generation gpu_lib). vm_compute. reflexivity.
Defined.

Lemma library_failures_propagate_witness :
  (run oom_lib notebook []).2 = Failed oom ∧
  last (run oom_lib notebook []).1
    = Some (Called (Trainer_train (Obj 19)) (Err oom)).
Proof.
  apply (proj2 (library_failures_propagate oom_lib) _ (Trainer_train (Obj 19)) oom).
  apply last_Some_elem_of. vm_compute. reflexivity.
Defined.

Lemma sample_imdb_schema : raw_schema ["text"; "label"] sample_imdb.
Proof.
  intros k t c Hk [col Hc]. unfold sample_imdb in Hk. cbn [assoc] in Hk.
  assert (∀ (a b : list cell), ({[ "text" := a; "label" := b ]} : table) !! c = Some col →
            c ∈ ["text"; "label"]) as Hcols.
  { intros a b H.
    destruct (decide (c = "text")) as [->|?]; [apply list_elem_of_here|].
    destruct (decide (c = "label")) as [->|?];
      [apply list_elem_of_further, list_elem_of_here|].
    rewrite lookup_insert_ne, lookup_singleton_ne in H by done. done. }
  repeat match type of Hk with
         | (if ?b then _ else _) = _ => destruct b
         end; try discriminate; injection Hk as <-; by eapply Hcols.
Qed.

Lemma tokenized_dataset_columns_witness :
  ∃ enc : batch,
    enc ∈ encodings (run gpu_lib notebook []).1 ∧ is_Some (enc !! "input_ids").
Proof.
  apply (proj1 (tokenized_dataset_columns gpu_lib)
           (sample_encoding [CStr "a fine film"; CStr "dull"]
              (Some ["positive"; "negative"]))
           (sample_encoding [CStr "loved it"] (Some ["positive"]))
           (sample_encoding [CStr "a fine film"; CStr "dull"]
              (Some ["positive"; "negative"]))).
  - apply (list_elem_of_lookup_2 _ 0%nat). vm_compute. reflexivity.
  - left. reflexivity.
  - right. intros ds Hds.
    assert (loaded_datasets (run gpu_lib notebook []).1 = [sample_imdb]) as E
      by (vm_compute; reflexivity).
    rewrite E in Hds. apply list_elem_of_singleton in Hds as ->.
    apply sample_imdb_schema.
  - vm_compute. by eexists.
Defined.

(** * Further properties of the closure *)

Lemma mapM_dict_getitem_known (lm : gmap Z string) labels targets :
  Forall2 (λ z s, lm !! z = Some s) labels targets →
  mapM (dict_getitem lm) (CInt <$> labels) = Ret targets.
Proof.
  induction 1 as [|z s labels targets Hz _ IH]; [done|].
  rewrite fmap_cons, mapM_cons, IH. simpl. by rewrite Hz.
Qed.

Lemma mapM_dict_getitem_unknown (lm : gmap Z string) known z rest :
  Forall (λ y, is_Some (lm !! y)) known → lm !! z = None →
  mapM (dict_getitem lm) (CInt <$> known ++ z :: rest) = Raise (KeyError (CInt z)).
Proof.
  intros Hk Hz. induction Hk as [|y known [s Hy] _ IH]; cbn [app].
  - rewrite fmap_cons, mapM_cons. simpl. by rewrite Hz.
  - rewrite fmap_cons, mapM_cons, IH. simpl. by rewrite Hy.
Qed.

Lemma known_labels_targets (lm : gmap Z string) labels :
  Forall (λ y, is_Some (lm !! y)) labels →
  ∃ targets, Forall2 (λ z s, lm !! z = Some s) labels targets.
Proof.
  induction labels as [|y labels IH]; intros H; [by exists []|].
  apply Forall_cons in H as [[s Hy] Hrest]. destruct (IH Hrest) as [targets ?].
  exists (s :: targets). by constructor.
Qed.



(** The closure reports the first label without an entry, whatever follows it
    and whether or not the batch has a text column; the tokenizer is not
    called. *)
Theorem to_tokens_first_unknown_label tokenizer (label_map : gmap Z string)
    (x : batch) known z rest (lib : library) hist :
  x !! "label" = Some (CInt <$> known ++ z :: rest) →
  Forall (λ y, is_Some (label_map !! y)) known →
  label_map !! z = None →
  run lib (to_tokens tokenizer label_map x) hist = ([], Failed (KeyError (CInt z))).
Proof.
  intros Hl Hk Hz. unfold to_tokens, getitem.
  by rewrite Hl, ret_bind, (mapM_dict_getitem_unknown _ _ _ _ Hk Hz).
Qed.

Lemma to_tokens_first_unknown_label_witness :
  run gpu_lib
    (to_tokens (Obj 7) imdb_label_lookup {[ "label" := CInt <$> [1; 7; 9] ]}) []
  = ([], Failed (KeyError (CInt 7))).
Proof.
  apply (to_tokens_first_unknown_label (Obj 7) imdb_label_lookup _ [1] 7 [9]).
  - vm_compute. reflexivity.
  - constructor; [by eexists|constructor].
  - vm_compute. reflexivity.
Defined.

(** A batch without a label column is a [KeyError] on "label"; one with known
    labels but without a text column is a [KeyError] on "text", raised after
    the labels were translated.  The tokenizer is called in neither case. *)
Theorem to_tokens_missing_column tokenizer (label_map : gmap Z string)
    (x : batch) (lib : library) hist :
  (x !! "label" = None →
   run lib (to_tokens tokenizer label_map x) hist
     = ([], Failed (KeyError (CStr "label")))) ∧
  (∀ labels, x !! "label" = Some (CInt <$> labels) →
     Forall (λ y, is_Some (label_map !! y)) labels →
     x !! "text" = None →
     run lib (to_tokens tokenizer label_map x) hist
       = ([], Failed (KeyError (CStr "text")))).
Proof.
  split.
  - intros Hl. unfold to_tokens, getitem. by rewrite Hl.
  - intros labels Hl Hk Ht.
    destruct (known_labels_targets label_map labels Hk) as [targets Hmap].
    unfold to_tokens, getitem.
    by rewrite Hl, ret_bind, (mapM_dict_getitem_known _ _ _ Hmap), ret_bind, Ht.
Qed.

Lemma to_tokens_missing_column_witness :
  run gpu_lib
    (to_tokens (Obj 7) imdb_label_lookup {[ "label" := CInt <$> [1; 0] ]}) []
  = ([], Failed (KeyError (CStr "text"))).
Proof.
  apply (proj2 (to_tokens_missing_column (Obj 7) imdb_label_lookup _ gpu_lib [])
           [1; 0]).
  - vm_compute. reflexivity.
  - constructor; [by eexists|]. constructor; [by eexists|constructor].
  - vm_compute. reflexivity.
Defined.

(** Whatever the batch and the lookup table, the closure makes at most one
    call, which is a call of its tokenizer with text targets,
    [return_tensors="pt"], truncation and padding; it returns a batch
    encoding only if that call was made and returned it. *)
Theorem to_tokens_single_call tokenizer (label_map : gmap Z string) (x : batch)
    (lib : library) hist :
  let r := run lib (to_tokens tokenizer label_map x) hist in
  (length r.1 ≤ 1)%nat ∧
  Forall (map_call tokenizer) r.1 ∧
  ∀ enc, r.2 = Done enc →
    ∃ text targets,
      r.1 = [Called (tokenizer_call tokenizer text (Some targets) "pt" true true)
               (Ok enc)].
Proof.
  intros r.
  destruct (always_to_tokens tokenizer label_map x lib hist)
    as [[Hl [e He]]|(text & targets & res & Hl & Ho)]; fold r in Hl |- *.
  - fold r in He. rewrite Hl, He. simpl. split; [lia|]. split; [constructor|done].
  - fold r in Ho. rewrite Hl, Ho. simpl. split; [lia|]. split.
    + constructor; [|constructor]. by exists text, targets, res.
    + intros enc Henc. destruct res as [enc'|e]; [|done].
      injection Henc as ->. by exists text, targets.
Qed.

(** ** The condition of the assertion *)

Lemma prefix_split p s : String.prefix p s = true → ∃ b, s = p +:+ b.
Proof.
  revert s. induction p as [|a p IH]; intros s H.
  - by exists s.
  - destruct s as [|a' s]; [done|]. simpl in H.
    destruct (Ascii.ascii_dec a a') as [->|]; [|done].
    destruct (IH s H) as [b ->]. by exists b.
Qed.

Lemma str_contains_unfold needle hay :
  str_contains needle hay =
  String.prefix needle hay ||
  match hay with
  | EmptyString => false
  | String _ rest => str_contains needle rest
  end.
Proof. by destruct hay. Qed.

(** ["gpu" in version], and any [needle in hay], holds exactly when [hay] is
    some string, then [needle], then some string. *)
Theorem str_contains_spec needle hay :
  str_contains needle hay = true ↔ ∃ a b, hay = a +:+ needle +:+ b.
Proof.
  split.
  - induction hay as [|c hay IH]; rewrite str_contains_unfold; intros H.
    + apply orb_true_iff in H as [H|H]; [|done].
      destruct (prefix_split _ _ H) as [b ->]. by exists "", b.
    + apply orb_true_iff in H as [H|H].
      * destruct (prefix_split _ _ H) as [b ->]. by exists "", b.
      * destruct (IH H) as (a & b & ->). by exists (String c a), b.
  - intros (a & b & ->). induction a as [|c a IH].
    + change ("" +:+ needle +:+ b) with (needle +:+ b).
      by rewrite str_contains_unfold, prefix_append.
    + change (String c a +:+ needle +:+ b) with (String c (a +:+ needle +:+ b)).
      rewrite str_contains_unfold, IH. apply orb_true_r.
Qed.

Lemma to_tokens_single_call_witness :
  ∃ text targets,
    (run gpu_lib
       (to_tokens (Obj 7) imdb_label_lookup
          {[ "text" := [CStr "a fine film"; CStr "dull"];
             "label" := [CInt 1; CInt 0] ]}) []).1
    = [Called (tokenizer_call (Obj 7) text (Some targets) "pt" true true)
         (Ok (sample_encoding [CStr "a fine film"; CStr "dull"]
                (Some ["positive"; "negative"])))].
Proof.
  apply (proj2 (proj2 (to_tokens_single_call (Obj 7) imdb_label_lookup
                         {[ "text" := [CStr "a fine film"; CStr "dull"];
                            "label" := [CInt 1; CInt 0] ]} gpu_lib []))).
  vm_compute. reflexivity.
Defined.

Lemma str_contains_spec_witness :
  str_contains "gpu" "13.3.x-gpu-ml-scala2.12" = true.
Proof.
  apply str_contains_spec. by exists "13.3.x-", "-ml-scala2.12".
Defined.

(** * Further properties of the notebook *)

(** ** Clean-up *)

Lemma notebook_cleaned_up :
  always notebook (λ l o,
    match o with
    | Done _ => cleaned_up l = tmp_roots l ∧ length (cleaned_up l) = 1%nat
    | Failed _ => cleaned_up l = []
    end).
Proof.
  unfold notebook.
  repeat nb_step ltac:(unfold cleaned_up; by omap_simpl).
  unfold cleaned_up, tmp_roots. by omap_simpl.
Qed.

(** The temporary directory is cleaned up only by a run that completes: a
    run that fails anywhere, also after the directory was created, ends
    without a clean-up that returned. *)
Theorem cleanup_only_on_success (lib : library) :
  let r := run lib notebook [] in
  (r.2 = Done tt → cleaned_up r.1 = tmp_roots r.1 ∧ length (cleaned_up r.1) = 1%nat) ∧
  (∀ e, r.2 = Failed e → cleaned_up r.1 = []).
Proof.
  intros r. pose proof (notebook_cleaned_up lib []) as H. fold r in H.
  split.
  - intros Hd. by rewrite Hd in H.
  - intros e He. by rewrite He in H.
Qed.

Lemma cleanup_only_on_success_witness :
  cleaned_up (run oom_lib notebook []).1 = [] ∧
  tmp_roots (run oom_lib notebook []).1 = ["/tmp/tmp8x2k1q0d"].
Proof.
  split.
  - apply (proj2 (cleanup_only_on_success oom_lib) oom). vm_compute. reflexivity.
  - vm_compute. reflexivity.
Defined.

(** ** The environment at training time *)

Lemma environ_at_train_map_calls tok w l rest :
  Forall (map_call tok) l → environ_at_train w (l ++ rest) = environ_at_train w rest.
Proof.
  induction 1 as [|e l (text & targets & r & ->) _ IH]; [done|]. exact IH.
Qed.

Lemma environ_at_train_map_calls_nil tok w l :
  Forall (map_call tok) l → environ_at_train w l = [].
Proof.
  intros H. rewrite <- (app_nil_r l). by rewrite (environ_at_train_map_calls tok).
Qed.

Ltac environ_simpl :=
  repeat (cbn [environ_at_train app];
          repeat match goal with
          | H : Forall (map_call ?tok) ?l
            |- context [environ_at_train ?w (?l ++ ?rest)] =>
              rewrite (environ_at_train_map_calls tok w l rest H)
          | H : Forall (map_call ?tok) ?l |- context [environ_at_train ?w ?l] =>
              rewrite (environ_at_train_map_calls_nil tok w l H)
          end).

Lemma notebook_environ_at_train :
  always notebook (λ l o,
    environ_at_train [] l `prefix_of` [[]; topology] ∧
    (o = Done tt → environ_at_train [] l = [[]; topology])).
Proof.
  unfold notebook.
  repeat nb_step ltac:(split; [environ_simpl; by eexists | done]).
  split; [|intros _]; environ_simpl; [by exists []|done].
Qed.

(** The first training starts before the notebook has written any
    environment variable; the DeepSpeed training starts after all five were
    written.  No other training is started. *)
Theorem environ_when_training (lib : library) :
  let r := run lib notebook [] in
  environ_at_train [] r.1 `prefix_of` [[]; topology] ∧
  (r.2 = Done tt → environ_at_train [] r.1 = [[]; topology]).
Proof. apply notebook_environ_at_train. Qed.

Lemma environ_when_training_witness :
  environ_at_train [] (run gpu_lib notebook []).1 = [[]; topology].
Proof.
  apply (environ_when_training gpu_lib). vm_compute. reflexivity.
Defined.


(** ** Tokenizer and model *)

Lemma uses_current_tokenizer_map_calls tok l rest :
  Forall (map_call tok) l →
  uses_current_tokenizer (Some tok) rest →
  uses_current_tokenizer (Some tok) (l ++ rest).
Proof.
  induction 1 as [|e l (text & targets & r & ->) _ IH]; [done|].
  intros Hrest. split; [done|]. by apply IH.
Qed.

Ltac tokenizer_tac :=
  repeat first
    [ progress cbn [uses_current_tokenizer]
    | split; [reflexivity|]
    | match goal with
      | H : Forall (map_call ?tok) ?l
        |- uses_current_tokenizer (Some ?tok) (?l ++ _) =>
          apply (uses_current_tokenizer_map_calls tok l _ H)
      | H : Forall (map_call ?tok) ?l |- uses_current_tokenizer (Some ?tok) ?l =>
          rewrite <- (app_nil_r l);
          apply (uses_current_tokenizer_map_calls tok l [] H)
      end
    | exact I ].

Lemma notebook_uses_current_tokenizer :
  always notebook (λ l o, uses_current_tokenizer None l).
Proof.
  unfold notebook.
  repeat nb_step ltac:(tokenizer_tac).
  tokenizer_tac.
Qed.

Lemma notebook_checkpoints :
  always notebook (λ l o,
    model_checkpoints l `prefix_of` tokenizer_checkpoints l ∧
    (o = Done tt →
       ∃ DA, classroom l = [DA] ∧
         tokenizer_checkpoints l
           = [("t5-small", datasets DA); ("t5-base", datasets DA)] ∧
         model_checkpoints l = tokenizer_checkpoints l)).
Proof.
  unfold notebook.
  repeat nb_step ltac:(
    split; [unfold model_checkpoints, tokenizer_checkpoints; omap_simpl;
            by eexists | done]).
  split.
  - unfold model_checkpoints, tokenizer_checkpoints; omap_simpl. by exists [].
  - intros _. eexists.
    unfold classroom, model_checkpoints, tokenizer_checkpoints. by omap_simpl.
Qed.

(** In every run, each call that takes a tokenizer (the tokenization mapped
    over the dataset, the data collator, the trainer, the tokenization of
    the reviews, the decoding) takes the tokenizer that was loaded last, and
    a pre-trained model is only fetched for a checkpoint and cache directory
    whose tokenizer was fetched before.  A run that completes fetches
    tokenizer and model for "t5-small" and then for "t5-base", both from
    [DA.paths.datasets]. *)
Theorem tokenizer_and_model_agree (lib : library) :
  let r := run lib notebook [] in
  uses_current_tokenizer None r.1 ∧
  model_checkpoints r.1 `prefix_of` tokenizer_checkpoints r.1 ∧
  (r.2 = Done tt →
     ∃ DA, classroom r.1 = [DA] ∧
       tokenizer_checkpoints r.1
         = [("t5-small", datasets DA); ("t5-base", datasets DA)] ∧
       model_checkpoints r.1 = tokenizer_checkpoints r.1).
Proof.
  intros r. split; [apply notebook_uses_current_tokenizer|].
  apply notebook_checkpoints.
Qed.

Lemma tokenizer_and_model_agree_witness :
  ∃ DA, classroom (run gpu_lib notebook []).1 = [DA] ∧
    tokenizer_checkpoints (run gpu_lib notebook []).1
      = [("t5-small", datasets DA); ("t5-base", datasets DA)] ∧
    model_checkpoints (run gpu_lib notebook []).1
      = tokenizer_checkpoints (run gpu_lib notebook []).1.
Proof.
  apply (tokenizer_and_model_agree gpu_lib). vm_compute. reflexivity.
Defined.

(** ** Splits *)

Lemma tokenized_split rm raw l d' k (t' : table) :
  tokenized_from rm raw l d' → assoc k d' = Some t' →
  ∃ t : table, assoc k raw = Some t ∧ has_columns rm t = true.
Proof. intros H Hk. destruct (H k t' Hk) as (t & ? & ? & _). eauto. Qed.

Ltac splits_tac :=
  unfold trainer_datasets, loaded_datasets; omap_simpl;
  first
    [ by intros []
    | intros _ ds Hds;
      repeat (apply elem_of_cons in Hds as [->|Hds]);
      [..|by apply elem_of_nil in Hds];
      match goal with
      | Htok : tokenized_from _ ?raw _ ?d, H1 : assoc "train" ?d = Some _,
        H2 : assoc "test" ?d = Some _ |- context [assoc _ ?raw] =>
          destruct (tokenized_split _ _ _ _ _ _ Htok H1) as (t1 & ? & ?);
          destruct (tokenized_split _ _ _ _ _ _ Htok H2) as (t2 & ? & ?);
          by exists t1, t2
      end ].

Lemma notebook_trainer_splits :
  always notebook (λ l o,
    trainer_datasets l ≠ [] →
    ∀ ds, ds ∈ loaded_datasets l →
      ∃ t1 t2 : table,
        assoc "train" ds = Some t1 ∧ has_columns ["text"; "label"] t1 = true ∧
        assoc "test" ds = Some t2 ∧ has_columns ["text"; "label"] t2 = true).
Proof.
  unfold notebook.
  repeat nb_step ltac:(splits_tac).
  splits_tac.
Qed.

(** In every run, a trainer is constructed only if the dataset that was
    loaded has a "train" and a "test" split, each with a "text" and a "label"
    column; otherwise the run fails before any trainer exists. *)
Theorem trainer_needs_train_and_test (lib : library) :
  let log := (run lib notebook []).1 in
  trainer_datasets log ≠ [] →
  ∀ ds, ds ∈ loaded_datasets log →
    ∃ t1 t2 : table,
      assoc "train" ds = Some t1 ∧ has_columns ["text"; "label"] t1 = true ∧
      assoc "test" ds = Some t2 ∧ has_columns ["text"; "label"] t2 = true.
Proof. apply notebook_trainer_splits. Qed.

Lemma trainer_needs_train_and_test_witness :
  ∃ t1 t2 : table,
    assoc "train" sample_imdb = Some t1 ∧ has_columns ["text"; "label"] t1 = true ∧
    assoc "test" sample_imdb = Some t2 ∧ has_columns ["text"; "label"] t2 = true.
Proof.
  apply (trainer_needs_train_and_test gpu_lib).
  - assert (length (trainer_datasets (run gpu_lib notebook []).1) = 2%nat) as Hlen
      by (vm_compute; reflexivity).
    intros H. rewrite H in Hlen. discriminate Hlen.
  - apply (list_elem_of_lookup_2 _ 0%nat). vm_compute. reflexivity.
Defined.


(** ** Paths of the two runs *)

Lemma append_assoc a b c : (a +:+ b) +:+ c = a +:+ b +:+ c.
Proof.
  induction a as [|x a IH]; [done|].
  change (String x (a +:+ b) +:+ c = String x (a +:+ b +:+ c)).
  change (String x ((a +:+ b) +:+ c) = String x (a +:+ b +:+ c)). by rewrite IH.
Qed.

Lemma prefix_append_inv a s t :
  String.prefix (a +:+ s) (a +:+ t) = String.prefix s t.
Proof.
  induction a as [|x a IH]; [done|].
  change (String.prefix (String x (a +:+ s)) (String x (a +:+ t)) = String.prefix s t).
  cbn [String.prefix]. by destruct (Ascii.ascii_dec x x).
Qed.

Lemma eqb_append_inv a s t : String.eqb (a +:+ s) (a +:+ t) = String.eqb s t.
Proof.
  induction a as [|x a IH]; [done|].
  change (String.eqb (String x (a +:+ s)) (String x (a +:+ t)) = String.eqb s t).
  cbn [String.eqb]. by rewrite Ascii.eqb_refl.
Qed.

Lemma path_under_append a s t :
  path_under (a +:+ s) (a +:+ t)
  = (String.eqb s t || str_startswith (s +:+ "/") t).
Proof.
  unfold path_under, str_startswith.
  by rewrite eqb_append_inv, append_assoc, prefix_append_inv.
Qed.

Lemma os_path_join_append root n :
  str_startswith "/" n = false →
  ∃ sep, os_path_join root n = root +:+ sep +:+ n ∧
    ∀ n', str_startswith "/" n' = false →
      os_path_join root n' = root +:+ sep +:+ n'.
Proof.
  intros Hn. unfold os_path_join. rewrite Hn.
  destruct (String.eqb root "" || str_endswith "/" root).
  - exists "". split; [done|]. by intros n' ->.
  - exists "/". split; [done|]. by intros n' ->.
Qed.

(** The checkpoint directories of the two runs, and their persistent paths,
    are different, and neither lies below the other: the DeepSpeed run does
    not write over what the first run wrote, whatever the temporary
    directory and the working directory are. *)
Theorem runs_do_not_share_paths (root : string) (DA : DBAcademyHelper) :
  let dir1 := os_path_join root "test-trainer" in
  let dir2 := os_path_join root "test-trainer-deepspeed" in
  let final1 := final_path DA "test-trainer" in
  let final2 := final_path DA "test-trainer-deepspeed" in
  path_under dir1 dir2 = false ∧ path_under dir2 dir1 = false ∧
  path_under final1 final2 = false ∧ path_under final2 final1 = false.
Proof.
  intros dir1 dir2 final1 final2.
  destruct (os_path_join_append root "test-trainer" eq_refl) as (sep & E1 & E).
  pose proof (E "test-trainer-deepspeed" eq_refl) as E2.
  unfold dir1, dir2, final1, final2, final_path. rewrite E1, E2.
  rewrite <- !append_assoc, !path_under_append. done.
Qed.

Lemma notebook_tensorboard :
  always notebook (λ l o, o = Done tt →
    ∃ root, tmp_roots l = [root] ∧
      tensorboard_watches (os_path_join root "test-trainer") l ∧
      tensorboard_watches (os_path_join root "test-trainer-deepspeed") l).
Proof.
  unfold notebook.
  repeat nb_step ltac:(done).
  intros _. unit_vars. eexists. split; [unfold tmp_roots; by omap_simpl|].
  unfold tensorboard_watches. split; do 12 eexists; sublist_search.
Qed.

(** In a run that completes, before each of the two trainings TensorBoard is
    started on the "runs" directory of the very checkpoint directory that the
    trainer about to be trained was configured with. *)
Theorem tensorboard_follows_checkpoints (lib : library) :
  (run lib notebook []).2 = Done tt →
  let log := (run lib notebook []).1 in
  ∃ root, tmp_roots log = [root] ∧
    tensorboard_watches (os_path_join root "test-trainer") log ∧
    tensorboard_watches (os_path_join root "test-trainer-deepspeed") log.
Proof. apply notebook_tensorboard. Qed.

Lemma tensorboard_follows_checkpoints_witness :
  ∃ root, tmp_roots (run gpu_lib notebook []).1 = [root] ∧
    tensorboard_watches (os_path_join root "test-trainer")
      (run gpu_lib notebook []).1 ∧
    tensorboard_watches (os_path_join root "test-trainer-deepspeed")
      (run gpu_lib notebook []).1.
Proof.
  apply (tensorboard_follows_checkpoints gpu_lib). vm_compute. reflexivity.
Defined.

(** ** Text targets *)

Lemma always_and {R} (p : Prog R) (Q1 Q2 : list entry → outcome R → Prop) :
  always p Q1 → always p Q2 → always p (λ l o, Q1 l o ∧ Q2 l o).
Proof. intros H1 H2 lib hist. split; [apply H1 | apply H2]. Qed.

Lemma imdb_targets (labels : list cell) targets :
  mapM (dict_getitem imdb_label_lookup) labels = Ret targets →
  Forall (λ s, s ∈ label_strings) targets.
Proof.
  revert targets. induction labels as [|y labels IH]; intros targets H.
  - injection H as <-. constructor.
  - rewrite mapM_cons in H.
    destruct y as [s|z|ids]; [done| |done]. simpl in H.
    destruct (imdb_label_lookup !! z) as [s|] eqn:Hz; [|done]. rewrite ret_bind in H.
    destruct (mapM_dict_getitem imdb_label_lookup labels) as [[ts Hts]|[e He]].
    + rewrite Hts, ret_bind in H. injection H as <-. constructor; [|by apply IH].
      apply imdb_label_lookup_Some in Hz.
      unfold label_strings.
      destruct Hz as [ [_ ->] | [ [_ ->] | [_ ->] ] ];
        repeat first [apply list_elem_of_here | apply list_elem_of_further].
    + by rewrite He in H.
Qed.

Lemma always_to_tokens_labels tok (x : batch) :
  always (to_tokens tok imdb_label_lookup x) (λ l _, Forall label_targets l).
Proof.
  unfold to_tokens, getitem.
  destruct (x !! "label") as [labels|]; [|by intros lib hist].
  rewrite ret_bind.
  destruct (mapM_dict_getitem imdb_label_lookup labels) as [[ts Hts]|[e ->]];
    [|by intros lib hist].
  rewrite Hts, ret_bind.
  destruct (x !! "text") as [text|]; [|by intros lib hist].
  rewrite ret_bind. intros lib hist. simpl.
  destruct (lib _ _ _); (constructor; [|done]);
    intros targets [= <-]; by apply imdb_targets in Hts.
Qed.

Lemma always_map_batches_Forall f rm bs (P : entry → Prop) :
  (∀ b, always (f b) (λ l _, Forall P l)) →
  always (map_batches f rm bs) (λ l _, Forall P l).
Proof.
  intros Hf. induction bs as [|b bs IH]; cbn [map_batches].
  - by apply always_ret.
  - apply always_bind. eapply always_mono; [apply Hf|].
    intros l [enc|e] Hl; [|done].
    apply always_bind. eapply always_mono; [apply IH|].
    intros l' [rest|e] Hl'; [|by apply Forall_app].
    apply always_ret. rewrite app_nil_r. by apply Forall_app.
Qed.

Lemma always_DatasetDict_map_Forall f rm (d : dataset_dict) (P : entry → Prop) :
  (∀ b, always (f b) (λ l _, Forall P l)) →
  (∀ r, P (Called (DatasetDict_map_enter d true rm) r)) →
  always (DatasetDict_map f rm d) (λ l _, Forall P l).
Proof.
  intros Hf Henter. unfold DatasetDict_map. apply always_do_bind.
  - intros e. constructor; [apply Henter|done].
  - intros u.
    assert (always (map_splits f rm d) (λ l _, Forall P l)) as Hsplits.
    { clear Henter. induction d as [|[k t] d IH]; cbn [map_splits].
      - by apply always_ret.
      - apply always_bind.
        assert (always (Dataset_map f rm t) (λ l _, Forall P l)) as Ht.
        { unfold Dataset_map. destruct (negb _); [by apply always_raise|].
          destruct (_ =? _)%nat; [by apply always_ret|].
          by apply always_map_batches_Forall. }
        eapply always_mono; [apply Ht|].
        intros l [t'|e] Hl; [|done].
        apply always_bind. eapply always_mono; [apply IH|].
        intros l' [rest|e] Hl'; [|by apply Forall_app].
        apply always_ret. rewrite app_nil_r. by apply Forall_app. }
    eapply always_mono; [apply Hsplits|].
    intros l o Hl. constructor; [apply Henter|done].
Qed.

Lemma always_DatasetDict_map_bind_labels {R} tok rm (d : dataset_dict)
    (k : dataset_dict → Prog R) Q :
  (∀ e, Q [Called (DatasetDict_map_enter d true rm) (Err e)] (Failed e)) →
  (∀ u l e, Forall (map_call tok) l → Forall label_targets l →
     Q (Called (DatasetDict_map_enter d true rm) (Ok u) :: l) (Failed e)) →
  (∀ u l d', Forall (map_call tok) l → Forall label_targets l →
     always (k d')
       (λ l' o, Q (Called (DatasetDict_map_enter d true rm) (Ok u) :: l ++ l') o)) →
  always (DatasetDict_map (to_tokens tok imdb_label_lookup) rm d ≫= k) Q.
Proof.
  intros Henter Hfail Hok. apply always_bind.
  eapply always_mono.
  { apply always_and; [apply always_DatasetDict_map|].
    apply (always_DatasetDict_map_Forall _ _ _ label_targets).
    - apply always_to_tokens_labels.
    - by intros r targets. }
  intros l o [(r & l' & -> & Hl & Hr) Hlab]. apply Forall_cons in Hlab as [_ Hlab].
  destruct r as [u|e].
  - destruct o as [d'|e]; [|by apply Hfail].
    eapply always_mono; [by apply (Hok u l' d')|]. done.
  - destruct Hr as [-> ->]. apply Henter.
Qed.

Lemma label_targets_text_targets l :
  Forall label_targets l →
  Forall (Forall (λ s, s ∈ label_strings)) (text_targets l).
Proof.
  induction 1 as [|e l He _ IH]; [constructor|].
  unfold text_targets. cbn [omap list_omap].
  destruct (targets_of e) as [targets|] eqn:E; [|exact IH].
  constructor; [by apply He|exact IH].
Qed.

Ltac nb_step_labels fail_tac :=
  nb_norm;
  lazymatch goal with
  | |- always (DatasetDict_map (to_tokens _ imdb_label_lookup) _ _ ≫= _) _ =>
      apply always_DatasetDict_map_bind_labels;
      [intros ?; nb_norm; fail_tac
      |intros ? ? ? ? ?; nb_norm; fail_tac
      |intros ? ? ? ? ?]
  | |- _ => nb_step fail_tac
  end.

Ltac targets_tac :=
  unfold text_targets;
  repeat (cbn [omap list_omap app targets_of]; rewrite ?omap_app);
  repeat first
    [ apply Forall_nil_2
    | apply Forall_app; split
    | by apply label_targets_text_targets ].

Lemma notebook_text_targets :
  always notebook (λ l o,
    Forall (Forall (λ s, s ∈ label_strings)) (text_targets l)).
Proof.
  unfold notebook.
  repeat nb_step_labels ltac:(targets_tac).
  targets_tac.
Qed.

(** In every run, whenever the tokenizer is given text targets, each of them
    is one of "negative", "positive" and "unknown": the model is never
    trained towards any other output. *)
Theorem text_targets_are_label_strings (lib : library) :
  Forall (Forall (λ s, s ∈ label_strings)) (text_targets (run lib notebook []).1).
Proof. apply notebook_text_targets. Qed.

(** ** The displayed table *)




